(** * Query routing and Genie client of the Databricks chatbot

    A shallow embedding of [src/utils/query_router.py] and
    [src/utils/genie_client.py].

    Conventions of the embedding.
    - Python [str] values are Rocq strings; the characters are the ASCII
      code points, and [lower], [strip] and the regular-expression
      classes follow CPython on that range.
    - Python [float] is the primitive binary64 type of Rocq, so that
      [0.5 + n * 0.1] rounds exactly as it does in CPython.
    - Python [int] is [Z]. *)

From Stdlib Require Import ZArith List Ascii String Bool Lia.
From Stdlib Require Import Floats.PrimFloat Numbers.Cyclic.Int63.Uint63.
From Stdlib Require Import Floats.SpecFloat Floats.FloatOps.
From Stdlib Require Import Numbers.DecimalString.
From stdpp Require Import gmap strings.
Import ListNotations.

Set Warnings "-inexact-float,-register-all".
Local Open Scope Z_scope.

(** ** Characters and strings *)

Module Str.

Definition chars (s : string) : list ascii := list_ascii_of_string s.

Definition code (c : ascii) : N := N_of_ascii c.

Definition in_range (lo hi : N) (c : ascii) : bool :=
  ((lo <=? code c) && (code c <=? hi))%N.

Definition is_upper (c : ascii) : bool := in_range 65 90 c.

(** [str.lower()] on one character. *)
Definition lower_char (c : ascii) : ascii :=
  if is_upper c then ascii_of_N (code c + 32) else c.

(** [str.isspace()] on one character: TAB, LF, VT, FF, CR, the four
    separators FS, GS, RS, US, and the space. *)
Definition is_space (c : ascii) : bool :=
  in_range 9 13 c || in_range 28 32 c.

(** The class [\w]: letters, digits and the underscore. *)
Definition is_word (c : ascii) : bool :=
  in_range 97 122 c || in_range 65 90 c || in_range 48 57 c
  || (code c =? 95)%N.

Definition lower (s : list ascii) : list ascii := map lower_char s.

Fixpoint lstrip (s : list ascii) : list ascii :=
  match s with
  | c :: s' => if is_space c then lstrip s' else s
  | [] => []
  end.

Definition rstrip (s : list ascii) : list ascii := rev (lstrip (rev s)).

Definition strip (s : list ascii) : list ascii := rstrip (lstrip s).

Definition eqb_list (a b : list ascii) : bool :=
  if decide (a = b) then true else false.

(** [needle in haystack] for two strings. *)
Fixpoint prefix_of (p s : list ascii) : bool :=
  match p, s with
  | [], _ => true
  | a :: p', b :: s' => Ascii.eqb a b && prefix_of p' s'
  | _ :: _, [] => false
  end.

Fixpoint contains (needle hay : list ascii) : bool :=
  prefix_of needle hay ||
  match hay with
  | [] => false
  | _ :: hay' => contains needle hay'
  end.

(** The same operations on [string]. *)
Definition lower_s (s : string) : string :=
  string_of_list_ascii (lower (chars s)).

Definition contains_s (needle hay : string) : bool :=
  contains (chars needle) (chars hay).

Definition head_s (s : string) : string :=
  match s with
  | String c _ => String c EmptyString
  | EmptyString => EmptyString
  end.

End Str.

(** ** Regular expressions

    The fragment of the syntax of [re] that the two pattern tables use:
    literals, [.], one-level character classes, [\b], grouping with
    alternation, and the postfix operators [?] and [*]. *)

Module Re.

Inductive regex : Type :=
| Eps
| Lit (c : ascii)
| AnyChar
| Class (cs : list ascii)
| WordBoundary
| Cat (r1 r2 : regex)
| Alt (r1 r2 : regex)
| Opt (r : regex)
| Star (r : regex).

(** *** Parsing a pattern *)

Definition postfix (r : regex) (s : list ascii)
  : regex * list ascii :=
  match s with
  | "*"%char :: s' => (Star r, s')
  | "?"%char :: s' => (Opt r, s')
  | _ => (r, s)
  end.

Fixpoint parse_class (s : list ascii) (acc : list ascii)
  : option (list ascii * list ascii) :=
  match s with
  | [] => None
  | "]"%char :: s' => Some (rev acc, s')
  | "\"%char :: _ => None
  | "^"%char :: _ => None
  | "-"%char :: _ => None
  | c :: s' => parse_class s' (c :: acc)
  end.

Definition is_special (c : ascii) : bool :=
  existsb (Ascii.eqb c)
    ["*"; "+"; "?"; "{"; "}"; "^"; "$"; "]"]%char.

Fixpoint parse_alt (n : nat) (s : list ascii)
  : option (regex * list ascii) :=
  match n with
  | O => None
  | S n' =>
    match parse_seq n' s with
    | Some (r1, "|"%char :: s1) =>
      match parse_alt n' s1 with
      | Some (r2, s2) => Some (Alt r1 r2, s2)
      | None => None
      end
    | other => other
    end
  end
with parse_seq (n : nat) (s : list ascii)
  : option (regex * list ascii) :=
  match n with
  | O => None
  | S n' =>
    match s with
    | [] => Some (Eps, [])
    | "|"%char :: _ => Some (Eps, s)
    | ")"%char :: _ => Some (Eps, s)
    | _ =>
      match parse_atom n' s with
      | Some (a, s1) =>
        match parse_seq n' s1 with
        | Some (Eps, s2) => Some (a, s2)
        | Some (r, s2) => Some (Cat a r, s2)
        | None => None
        end
      | None => None
      end
    end
  end
with parse_atom (n : nat) (s : list ascii)
  : option (regex * list ascii) :=
  match n with
  | O => None
  | S n' =>
    match s with
    | [] => None
    | "("%char :: s1 =>
      match parse_alt n' s1 with
      | Some (r, ")"%char :: s2) => Some (postfix r s2)
      | _ => None
      end
    | "["%char :: s1 =>
      match parse_class s1 [] with
      | Some (cs, s2) => Some (postfix (Class cs) s2)
      | None => None
      end
    | "\"%char :: "b"%char :: s1 => Some (WordBoundary, s1)
    | "\"%char :: _ => None
    | "."%char :: s1 => Some (postfix AnyChar s1)
    | c :: s1 => if is_special c then None else Some (postfix (Lit c) s1)
    end
  end.

(** [re.compile(p, re.IGNORECASE)]; [None] stands for [re.error] and
    for syntax outside the fragment. *)
Definition compile (p : string) : option regex :=
  let s := Str.chars p in
  match parse_alt (S (3 * List.length s)) s with
  | Some (r, []) => Some r
  | _ => None
  end.

(** *** Matching

    A backtracking matcher in continuation style.  [prev] is the
    character before the current position, which [\b] looks at.
    Literals compare case-insensitively ([re.IGNORECASE]). *)

Definition word_at (c : option ascii) : bool :=
  match c with
  | Some c => Str.is_word c
  | None => false
  end.

Definition at_boundary (prev : option ascii) (s : list ascii) : bool :=
  xorb (word_at prev) (word_at (head s)).

Definition same_letter (a b : ascii) : bool :=
  Ascii.eqb (Str.lower_char a) (Str.lower_char b).

Definition newline : ascii := ascii_of_N 10.

Fixpoint matches (r : regex) (prev : option ascii) (s : list ascii)
         (k : option ascii -> list ascii -> bool) {struct r} : bool :=
  match r with
  | Eps => k prev s
  | Lit c =>
    match s with
    | x :: s' => if same_letter c x then k (Some x) s' else false
    | [] => false
    end
  | AnyChar =>
    match s with
    | x :: s' => if Ascii.eqb x newline then false else k (Some x) s'
    | [] => false
    end
  | Class cs =>
    match s with
    | x :: s' =>
      if existsb (fun c => same_letter c x) cs then k (Some x) s' else false
    | [] => false
    end
  | WordBoundary => if at_boundary prev s then k prev s else false
  | Cat r1 r2 => matches r1 prev s (fun p' s' => matches r2 p' s' k)
  | Alt r1 r2 => if matches r1 prev s k then true else matches r2 prev s k
  | Opt r1 => if matches r1 prev s k then true else k prev s
  | Star r1 =>
    (fix loop (fuel : nat) (p0 : option ascii) (s0 : list ascii) : bool :=
       match fuel with
       | O => k p0 s0
       | S fuel' =>
         if matches r1 p0 s0
              (fun p' s' =>
                 if (List.length s' <? List.length s0)%nat
                 then loop fuel' p' s' else false)
         then true
         else k p0 s0
       end) (List.length s) prev s
  end.

(** [pattern.search(text)]: a match starting at some position. *)
Fixpoint search_from (r : regex) (prev : option ascii) (s : list ascii)
  : bool :=
  if matches r prev s (fun _ _ => true) then true
  else
    match s with
    | [] => false
    | c :: s' => search_from r (Some c) s'
    end.

Definition search (r : regex) (s : list ascii) : bool :=
  search_from r None s.

End Re.

(** ** The query router ([src/utils/query_router.py]) *)

Inductive QueryType : Type := DATA | GENERAL.

Definition DATA_QUERY_PATTERNS : list string := [
    "\bhow many\b";
    "\bshow me\b.*\b(data|record|client|metric|table|result)";
    "\bwhat data\b";
    "\bquery\b";
    "\btable[s]?\b";
    "\bclient[s]?\b";
    "\bmetric[s]?\b";
    "\bcount\b.*\b(record|client|row|entry|item)";
    "\blist\b.*\b(all|client|record|data|table)";
    "\bfind\b.*\b(record|client|data|entry)";
    "\bsearch\b.*\b(database|record|client|data)";
    "\bdatabase\b";
    "\brecord[s]?\b";
    "\bhousing risk\b";
    "\bdisability\b";
    "\bmental health\b";
    "\bdemographic[s]?\b";
    "\bmeasureresponse[s]?\b";
    "\boutcome[s]?\b";
    "\bprogram evaluation\b";
    "\baverage\b.*\b(score|value|count|number)";
    "\btotal\b.*\b(count|number|client|record)";
    "\bsum\b";
    "\bpercentage\b";
    "\bdistribution\b";
    "\bbreakdown\b";
    "\banalyze\b.*\b(data|record|client)";
    "\banalysis\b.*\b(data|record|client)";
    "\bstatistic[s]?\b";
    "\btrend[s]?\b.*\b(data|client|record)";
    "\bcompare\b.*\b(data|client|record|metric)";
    "\bcomparison\b.*\b(data|client|record)";
    "\bfilter\b.*\b(data|record|client|by)";
    "\bgroup by\b";
    "\bsort\b.*\b(by|data|record)";
    "\border by\b";
    "\bselect\b.*\b(from|data|record)";
    "\bwhere\b.*\b(=|>|<|is|are)";
    "\bfrom\b.*\btable\b";
    "\bai.?final\b";
    "\bcleaned\b";
    "\blongitudinal\b";
    "\bsingle.?record\b";
    "\bsupport need[s]?\b";
    "\brisk level[s]?\b";
    "\bassessment[s]?\b"
  ]%string.

Definition GENERAL_QUERY_INDICATORS : list string := [
    "\bexplain\b";
    "\bwhat is\b.*\b(machine learning|ai|artificial intelligence|programming|coding|concept)\b";
    "\bhow does\b.*\bwork\b";
    "\bwrite\b.*\b(code|script|program|story|poem|essay)\b";
    "\bcreate\b.*\b(story|poem|essay|content)\b";
    "\btell me about\b";
    "\bdefine\b";
    "\bdescribe\b.*\b(concept|how|what)\b";
    "\bhelp me understand\b";
    "\bwhat are the benefits\b";
    "\bwhat are the advantages\b";
    "\bwhat are the disadvantages\b";
    "\bpros and cons\b";
    "\bopinion\b";
    "\bthink about\b";
    "\bsuggestion[s]?\b";
    "\brecommend\b";
    "\badvice\b";
    "\btips\b";
    "\bbest practice[s]?\b";
    "\bhow to\b.*\b(learn|improve|start|begin)\b";
    "\btutorial\b";
    "\bguide\b";
    "\bbenefits of\b";
    "\badvantages of\b";
    "\bdisadvantages of\b";
    "\busing\b.*\b(ai|machine learning|python|programming)\b"
  ]%string.

(** Arithmetic of Python on [int] and [float]. *)
Module Py.

(** [float(n)] for a small non-negative integer, as in [n * 0.1]. *)
Definition float_of_int (n : Z) : float :=
  PrimFloat.of_uint63 (Uint63.of_Z n).

(** [min(a, b)] returns [a] unless [b < a]. *)
Definition min (a b : float) : float :=
  if PrimFloat.ltb b a then b else a.

(** [a >= b] and [a <= b] on floats. *)
Definition ge (a b : float) : bool := PrimFloat.leb b a.
Definition le (a b : float) : bool := PrimFloat.leb a b.

(** [sum(...)] of integers. *)
Definition sum (l : list Z) : Z := fold_left Z.add l 0.

(** [len(l)]. *)
Definition len {A} (l : list A) : Z := Z.of_nat (List.length l).

(** [range(n)]. *)
Definition range (n : Z) : list Z := map Z.of_nat (seq 0 (Z.to_nat n)).

(** [str(n)] for an integer. *)
Definition str_of_int (n : Z) : string :=
  NilZero.string_of_int (Z.to_int n).

(** The integer nearest to [m * 2^e], ties to the even one. *)
Definition round_half_even (m : positive) (e : Z) : Z :=
  if 0 <=? e then Z.pos m * 2 ^ e
  else
    let unit := 2 ^ (- e) in
    let q := Z.pos m / unit in
    let r := Z.pos m mod unit in
    if 2 * r <? unit then q
    else if unit <? 2 * r then q + 1
    else if Z.even q then q else q + 1.

(** [format(x, ".0%")]: the float is multiplied by 100 as a float and
    the product is printed with no decimals, rounded half to even. *)
Definition format_percent0 (x : float) : string :=
  match Prim2SF (x * 100)%float with
  | S754_nan => "nan%"
  | S754_infinity false => "inf%"
  | S754_infinity true => "-inf%"
  | S754_zero false => "0%"
  | S754_zero true => "-0%"
  | S754_finite false m e => str_of_int (round_half_even m e) +:+ "%"
  | S754_finite true m e => "-" +:+ str_of_int (round_half_even m e) +:+ "%"
  end%string.

End Py.

Record QueryRouter : Type := {
  data_patterns : list Re.regex;
  general_patterns : list Re.regex
}.

(** [[re.compile(p, re.IGNORECASE) for p in patterns]]. *)
Fixpoint compile_all (patterns : list string) : option (list Re.regex) :=
  match patterns with
  | [] => Some []
  | p :: rest =>
    match Re.compile p, compile_all rest with
    | Some r, Some rs => Some (r :: rs)
    | _, _ => None
    end
  end.

(** [QueryRouter.__init__]. *)
Definition QueryRouter_init : option QueryRouter :=
  match compile_all DATA_QUERY_PATTERNS,
        compile_all GENERAL_QUERY_INDICATORS with
  | Some d, Some g => Some {| data_patterns := d; general_patterns := g |}
  | _, _ => None
  end.

(** The module-level instance [query_router = QueryRouter()]. *)
Definition query_router : QueryRouter :=
  Eval vm_compute in
    match QueryRouter_init with
    | Some r => r
    | None => {| data_patterns := []; general_patterns := [] |}
    end.

(** [sum(1 for p in patterns if p.search(text))]. *)
Definition count_matches (patterns : list Re.regex) (text : list ascii) : Z :=
  Py.sum (map (fun _ => 1) (List.filter (fun p => Re.search p text) patterns)).

(** Lines 124-140 of [classify_query]: the decision from the two counts. *)
Definition tie_break (data_matches general_matches : Z)
  : QueryType * float :=
  if (0 <? data_matches) && (general_matches =? 0) then
    let confidence :=
      Py.min (0.5 + Py.float_of_int data_matches * 0.1)%float 0.95%float in
    (DATA, confidence)
  else if (0 <? general_matches) && (data_matches =? 0) then
    let confidence :=
      Py.min (0.5 + Py.float_of_int general_matches * 0.1)%float 0.95%float in
    (GENERAL, confidence)
  else if general_matches <? data_matches then
    let confidence :=
      (0.5 + Py.float_of_int (data_matches - general_matches) * 0.05)%float in
    (DATA, Py.min confidence 0.85%float)
  else if data_matches <? general_matches then
    let confidence :=
      (0.5 + Py.float_of_int (general_matches - data_matches) * 0.05)%float in
    (GENERAL, Py.min confidence 0.85%float)
  else (GENERAL, 0.5%float).

Definition data_matches_of (self : QueryRouter) (query : string) : Z :=
  count_matches (data_patterns self) (Str.strip (Str.lower (Str.chars query))).

Definition general_matches_of (self : QueryRouter) (query : string) : Z :=
  count_matches (general_patterns self)
                (Str.strip (Str.lower (Str.chars query))).

(** [QueryRouter.classify_query].  The source also computes
    [data_score] and [general_score], two quotients that it never reads;
    they are kept as unused bindings. *)
Definition classify_query (self : QueryRouter) (query : string)
  : QueryType * float :=
  let query_lower := Str.strip (Str.lower (Str.chars query)) in
  let data_matches := count_matches (data_patterns self) query_lower in
  let general_matches := count_matches (general_patterns self) query_lower in
  let total_data_patterns := Py.len (data_patterns self) in
  let total_general_patterns := Py.len (general_patterns self) in
  let data_score :=
    if 0 <? total_data_patterns
    then (Py.float_of_int data_matches
          / Py.float_of_int total_data_patterns)%float
    else 0%float in
  let general_score :=
    if 0 <? total_general_patterns
    then (Py.float_of_int general_matches
          / Py.float_of_int total_general_patterns)%float
    else 0%float in
  tie_break data_matches general_matches.

Definition QueryType_eqb (a b : QueryType) : bool :=
  match a, b with
  | DATA, DATA | GENERAL, GENERAL => true
  | _, _ => false
  end.

(** [QueryRouter.should_route_to_genie] (the log line has no effect on
    the result). *)
Definition should_route_to_genie (self : QueryRouter) (query : string)
  : bool :=
  let '(query_type, confidence) := classify_query self query in
  QueryType_eqb query_type DATA && Py.ge confidence 0.5%float.

(** [QueryRouter.get_routing_explanation]. *)
Definition get_routing_explanation (self : QueryRouter) (query : string)
  : string :=
  let '(query_type, confidence) := classify_query self query in
  match query_type with
  | DATA =>
    "Routing to Genie Space (data query, confidence: "
    +:+ Py.format_percent0 confidence +:+ ")"
  | GENERAL =>
    "Routing to Claude LLM (general query, confidence: "
    +:+ Py.format_percent0 confidence +:+ ")"
  end%string.


(** ** The Genie client ([src/utils/genie_client.py]) *)

Module Genie.

Local Open Scope string_scope.
Local Open Scope Z_scope.

(** *** Python values

    The objects that [json] produces and that the client passes
    around.  A [VDict] lists its items in insertion order; keys are
    distinct in the dictionaries a decoder builds, and a lookup takes
    the first binding. *)
Inductive value : Type :=
| VNone
| VBool (b : bool)
| VInt (n : Z)
| VFloat (x : float)
| VStr (s : string)
| VList (items : list value)
| VDict (items : list (string * value)).

(** *** Exceptions

    Every class below derives from [Exception]; [BaseException]s that
    do not ([CancelledError], [KeyboardInterrupt]) are not modelled. *)
Inductive exn_class : Type :=
| HTTPStatusError (response_status_code : Z)
| JSONDecodeError
| AttributeError
| TypeError
| KeyError
| IndexError
| OtherException.

Record exn : Type := mk_exn { exn_cls : exn_class; exn_str : string }.

Inductive outcome (A : Type) : Type :=
| Ok (a : A)
| Raise (e : exn).
Arguments Ok {A} a.
Arguments Raise {A} e.

(** *** Built-in operations on values *)

Definition type_name (v : value) : string :=
  match v with
  | VNone => "NoneType"
  | VBool _ => "bool"
  | VInt _ => "int"
  | VFloat _ => "float"
  | VStr _ => "str"
  | VList _ => "list"
  | VDict _ => "dict"
  end.

Fixpoint lookup_key (k : string) (d : list (string * value))
  : option value :=
  match d with
  | [] => None
  | (k', v) :: d' => if String.eqb k k' then Some v else lookup_key k d'
  end.

(** [bool(v)]. *)
Definition truthy (v : value) : bool :=
  match v with
  | VNone => false
  | VBool b => b
  | VInt n => negb (Z.eqb n 0)
  | VFloat x => negb (PrimFloat.eqb x 0%float)
  | VStr s => negb (String.eqb s "")
  | VList l => match l with [] => false | _ => true end
  | VDict d => match d with [] => false | _ => true end
  end.

Definition is_str (v : value) (s : string) : bool :=
  match v with
  | VStr s' => String.eqb s s'
  | _ => false
  end.

(** [k in v] for a string [k]. *)
Definition py_in (k : string) (v : value) : outcome bool :=
  match v with
  | VDict d => Ok (match lookup_key k d with Some _ => true | None => false end)
  | VList l => Ok (existsb (fun x => is_str x k) l)
  | VStr s => Ok (Str.contains_s k s)
  | _ => Raise (mk_exn TypeError
                  ("argument of type '" +:+ type_name v
                   +:+ "' is not iterable"))
  end.

(** [v.get(k, default)]. *)
Definition py_get (v : value) (k : string) (default : value)
  : outcome value :=
  match v with
  | VDict d => Ok (match lookup_key k d with Some x => x | None => default end)
  | _ => Raise (mk_exn AttributeError
                  ("'" +:+ type_name v
                   +:+ "' object has no attribute 'get'"))
  end.

(** [len(v)]. *)
Definition py_len (v : value) : outcome Z :=
  match v with
  | VStr s => Ok (Z.of_nat (String.length s))
  | VList l => Ok (Py.len l)
  | VDict d => Ok (Py.len d)
  | _ => Raise (mk_exn TypeError
                  ("object of type '" +:+ type_name v
                   +:+ "' has no len()"))
  end.

(** [v[0]]. *)
Definition py_getitem0 (v : value) : outcome value :=
  match v with
  | VList (x :: _) => Ok x
  | VList [] => Raise (mk_exn IndexError "list index out of range")
  | VStr (String c _) => Ok (VStr (String c EmptyString))
  | VStr EmptyString => Raise (mk_exn IndexError "string index out of range")
  | VDict _ => Raise (mk_exn KeyError "0")
  | _ => Raise (mk_exn TypeError
                  ("'" +:+ type_name v +:+ "' object is not subscriptable"))
  end.

(** [v.lower()]. *)
Definition py_lower (v : value) : outcome string :=
  match v with
  | VStr s => Ok (Str.lower_s s)
  | _ => Raise (mk_exn AttributeError
                  ("'" +:+ type_name v
                   +:+ "' object has no attribute 'lower'"))
  end.

(** [a or b]. *)
Definition py_or (a b : value) : value := if truthy a then a else b.

(** An [Optional[str]] argument as a value. *)
Definition of_optional (o : option string) : value :=
  match o with
  | Some s => VStr s
  | None => VNone
  end.

Definition in_strings (s : string) (l : list string) : bool :=
  existsb (String.eqb s) l.

(** *** What the client is linked against

    The configuration constant and the library functions whose text
    output the client passes through. *)
Record Runtime : Type := {
  (** [GENIE_SPACE_ID], as an f-string formats it. *)
  GENIE_SPACE_ID : string;
  (** [json.loads] on a string; [None] is [JSONDecodeError]. *)
  json_loads : string -> option value;
  (** [json.dumps(v, indent=2)]. *)
  json_dumps : value -> string;
  (** [pd.DataFrame(v).to_markdown(index=False)]; [None] when it
      raises. *)
  to_markdown : value -> option string;
  (** [str(x)] for a float. *)
  float_str : float -> string
}.

(** *** The environment: token issuer and remote service *)

Record Response : Type := {
  status_code : Z;
  (** the text of the [HTTPStatusError] of [raise_for_status] *)
  status_error : string;
  (** [response.json()] *)
  json : outcome value
}.

Record Request : Type := {
  headers : list (string * string);
  payload : value
}.

Record Env : Type := {
  (** the [n]-th call of [token_minter.get_token()] *)
  get_token : nat -> outcome string;
  (** [client.post]: the answer to the newest request of a history
      (newest first) *)
  post : list Request -> outcome Response
}.

(** *** The state of the client and of its surroundings *)

Record world : Type := {
  conversation_ids : gmap string value;
  tokens_minted : nat;
  requests : list Request;
  sleeps : list float
}.

Definition M (A : Type) : Type := world -> outcome A * world.

Definition ret {A} (a : A) : M A := fun w => (Ok a, w).

Definition raise {A} (e : exn) : M A := fun w => (Raise e, w).

Definition bind {A B} (c : M A) (k : A -> M B) : M B :=
  fun w =>
    match c w with
    | (Ok a, w') => k a w'
    | (Raise e, w') => (Raise e, w')
    end.

(** [try: c  except <classes accepted by catches> as e: h e]. *)
Definition try_except {A} (c : M A) (catches : exn -> bool)
           (h : exn -> M A) : M A :=
  fun w =>
    match c w with
    | (Raise e, w') => if catches e then h e w' else (Raise e, w')
    | r => r
    end.

Definition lift {A} (o : outcome A) : M A := fun w => (o, w).

Declare Scope py_scope.
Delimit Scope py_scope with py.
Notation "x <- c ;; k" := (bind c (fun x => k))
  (at level 100, c at next level, right associativity) : py_scope.
Notation "c ;; k" := (bind c (fun _ => k))
  (at level 100, right associativity) : py_scope.
Local Open Scope py_scope.

(** Control after one pass through a loop body. *)
Inductive ctl (A : Type) : Type :=
| Return (a : A)
| Next.
Arguments Return {A} a.
Arguments Next {A}.

Definition is_JSONDecodeError (e : exn) : bool :=
  match exn_cls e with
  | JSONDecodeError => true
  | _ => false
  end.

Definition is_HTTPStatusError (e : exn) : bool :=
  match exn_cls e with
  | HTTPStatusError _ => true
  | _ => false
  end.

Definition is_Exception (e : exn) : bool := true.

(** [content and len(content) > 0]. *)
Definition nonempty (content : value) : outcome bool :=
  if truthy content then
    match py_len content with
    | Ok n => Ok (0 <? n)
    | Raise e => Raise e
    end
  else Ok false.

(** [response.raise_for_status()]: raises unless the status is 2xx. *)
Definition raise_for_status (r : Response) : outcome unit :=
  if (200 <=? status_code r) && (status_code r <=? 299) then Ok tt
  else Raise (mk_exn (HTTPStatusError (status_code r)) (status_error r)).

Definition tools_call (tool_name : string) (arguments : list (string * value))
  : value :=
  VDict [("method", VStr "tools/call");
         ("params", VDict [("name", VStr tool_name);
                           ("arguments", VDict arguments)])].

Definition expired_message : string :=
  "The conversation has expired. Please try your query again.".

Definition timeout_message : string :=
  "Query timed out. Please try again.".

Definition high_demand_message : string :=
  "The service is currently experiencing high demand. Please try again in a few moments.".

Section Client.

Context (rt : Runtime) (env : Env).

(** **** Effects *)

(** [self._get_headers()]: one call of the token issuer. *)
Definition _get_headers : M (list (string * string)) :=
  fun w =>
    let w' := {| conversation_ids := conversation_ids w;
                 tokens_minted := S (tokens_minted w);
                 requests := requests w;
                 sleeps := sleeps w |} in
    match get_token env (tokens_minted w) with
    | Ok token =>
      (Ok [("Authorization", "Bearer " +:+ token);
           ("Content-Type", "application/json")], w')
    | Raise e => (Raise e, w')
    end.

(** [await self.client.post(GENIE_MCP_BASE_URL, headers=.., json=..)]. *)
Definition client_post (hs : list (string * string)) (body : value)
  : M Response :=
  fun w =>
    let history := {| headers := hs; payload := body |} :: requests w in
    (post env history,
     {| conversation_ids := conversation_ids w;
        tokens_minted := tokens_minted w;
        requests := history;
        sleeps := sleeps w |}).

(** [await asyncio.sleep(seconds)]. *)
Definition sleep (seconds : float) : M unit :=
  fun w =>
    (Ok tt,
     {| conversation_ids := conversation_ids w;
        tokens_minted := tokens_minted w;
        requests := requests w;
        sleeps := seconds :: sleeps w |}).

(** [self.conversation_ids[session_id] = v]. *)
Definition set_conversation_id (session_id : string) (v : value)
  : M unit :=
  fun w =>
    (Ok tt,
     {| conversation_ids := <[session_id := v]> (conversation_ids w);
        tokens_minted := tokens_minted w;
        requests := requests w;
        sleeps := sleeps w |}).

(** **** Formatting *)

(** [json.loads(v)]. *)
Definition loads (v : value) : outcome value :=
  match v with
  | VStr s =>
    match json_loads rt s with
    | Some x => Ok x
    | None => Raise (mk_exn JSONDecodeError "Expecting value")
    end
  | _ => Raise (mk_exn TypeError
                  ("the JSON object must be str, bytes or bytearray, not "
                   +:+ type_name v))
  end.

(** [GenieMCPClient._format_data_as_table]. *)
Definition _format_data_as_table (data : value) : string :=
  if negb (truthy data) then "No data found."
  else
    match to_markdown rt data with
    | Some table => table
    | None => json_dumps rt data
    end.

(** [GenieMCPClient._format_response]. *)
Definition _format_response (response : value) : string :=
  match response with
  | VStr s =>
    match json_loads rt s with
    | Some data =>
      match data with
      | VList _ => _format_data_as_table data
      | VDict d =>
        match lookup_key "data" d with
        | Some x => _format_data_as_table x
        | None => json_dumps rt data
        end
      | _ => s
      end
    | None => s
    end
  | VList _ => _format_data_as_table response
  | VDict d =>
    match lookup_key "data" d with
    | Some x => _format_data_as_table x
    | None => json_dumps rt response
    end
  | VNone => "None"
  | VBool true => "True"
  | VBool false => "False"
  | VInt n => Py.str_of_int n
  | VFloat x => float_str rt x
  end.

(** **** Polling *)

(** The body of the [for] loop of [_poll_for_completion], with its
    [try ... except Exception]. *)
Definition poll_attempt (tool_name : string)
           (conversation_id message_id : value)
           (poll_interval : float) (attempt : Z)
  : M (ctl (value * value)) :=
  try_except
    (hs <- _get_headers ;;
     let body :=
       tools_call tool_name [("conversation_id", conversation_id);
                             ("message_id", message_id)] in
     response <- client_post hs body ;;
     if status_code response =? 429 then
       sleep (poll_interval * 2)%float ;;
       ret Next
     else
       lift (raise_for_status response) ;;
       result <- lift (json response) ;;
       has_error <- lift (py_in "error" result) ;;
       if has_error : bool then
         err <- lift (py_get result "error" (VDict [])) ;;
         error_msg <- lift (py_get err "message" (VStr "Unknown error")) ;;
         lowered <- lift (py_lower error_msg) ;;
         if Str.contains_s "expired" lowered
            || Str.contains_s "not found" lowered
         then ret (Return (VStr "", VStr expired_message))
         else ret (Return (VStr "", error_msg))
       else
         res <- lift (py_get result "result" (VDict [])) ;;
         content <- lift (py_get res "content" (VList [])) ;;
         has_content <- lift (nonempty content) ;;
         decided <-
           (if has_content : bool then
              first <- lift (py_getitem0 content) ;;
              text_content <- lift (py_get first "text" (VStr "")) ;;
              try_except
                (parsed <- lift (loads text_content) ;;
                 status <- lift (py_get parsed "status" (VStr "")) ;;
                 lowered <- lift (py_lower status) ;;
                 if in_strings lowered ["completed"; "complete"] then
                   response_text <-
                     lift (py_get parsed "response" text_content) ;;
                   ret (Return (VStr (_format_response response_text),
                                VNone))
                 else if in_strings lowered ["error"; "failed"] then
                   e <- lift (py_get parsed "error" (VStr "Query failed")) ;;
                   ret (Return (VStr "", e))
                 else ret Next)
                is_JSONDecodeError
                (fun _ => ret Next)
            else ret Next) ;;
         match decided with
         | Return v => ret (Return v)
         | Next => sleep poll_interval ;; ret Next
         end)
    is_Exception
    (fun e => sleep poll_interval ;; ret Next).

(** [for attempt in attempts: ...], then the timeout. *)
Fixpoint poll_loop (tool_name : string)
         (conversation_id message_id : value) (poll_interval : float)
         (attempts : list Z) : M (value * value) :=
  match attempts with
  | [] => ret (VStr "", VStr timeout_message)
  | attempt :: rest =>
    r <- poll_attempt tool_name conversation_id message_id
                      poll_interval attempt ;;
    match r with
    | Return v => ret v
    | Next => poll_loop tool_name conversation_id message_id
                        poll_interval rest
    end
  end.

(** [GenieMCPClient._poll_for_completion]. *)
Definition _poll_for_completion (conversation_id message_id : value)
           (max_attempts : Z) (poll_interval : float)
  : M (value * value) :=
  let tool_name := "poll_response_" +:+ GENIE_SPACE_ID rt in
  poll_loop tool_name conversation_id message_id poll_interval
            (Py.range max_attempts).

(** **** The query *)

(** [GenieMCPClient.query_genie]; the polling runs with the default
    [max_attempts=60] and [poll_interval=2.0]. *)
Definition query_genie (query session_id : string)
           (conversation_id : option string)
  : M (value * value * value) :=
  let conversation_id := of_optional conversation_id in
  try_except
    (hs <- _get_headers ;;
     let tool_name := "query_space_" +:+ GENIE_SPACE_ID rt in
     let arguments :=
       List.app [("query", VStr query)]
                (if truthy conversation_id
                 then [("conversation_id", conversation_id)] else []) in
     let body := tools_call tool_name arguments in
     response <- client_post hs body ;;
     if status_code response =? 429 then
       ret (VStr "", VNone, VStr high_demand_message)
     else
       lift (raise_for_status response) ;;
       result <- lift (json response) ;;
       has_error <- lift (py_in "error" result) ;;
       if has_error : bool then
         err <- lift (py_get result "error" (VDict [])) ;;
         error_msg <-
           lift (py_get err "message" (VStr "Unknown error from Genie")) ;;
         ret (VStr "", VNone, error_msg)
       else
         res <- lift (py_get result "result" (VDict [])) ;;
         content <- lift (py_get res "content" (VList [])) ;;
         has_content <- lift (nonempty content) ;;
         if has_content : bool then
           first <- lift (py_getitem0 content) ;;
           text_content <- lift (py_get first "text" (VStr "")) ;;
           try_except
             (parsed <- lift (loads text_content) ;;
              new_conversation_id <-
                lift (py_get parsed "conversation_id" VNone) ;;
              message_id <- lift (py_get parsed "message_id" VNone) ;;
              status <- lift (py_get parsed "status" (VStr "")) ;;
              (if truthy new_conversation_id
               then set_conversation_id session_id new_conversation_id
               else ret tt) ;;
              lowered <- lift (py_lower status) ;;
              if negb (in_strings lowered ["completed"; "complete"]) then
                polled <- _poll_for_completion
                            (py_or new_conversation_id conversation_id)
                            message_id 60 2%float ;;
                let '(response_text, error) := polled in
                if truthy error
                then ret (VStr "", new_conversation_id, error)
                else ret (response_text, new_conversation_id, VNone)
              else
                response_text <-
                  lift (py_get parsed "response" text_content) ;;
                ret (VStr (_format_response response_text),
                     new_conversation_id, VNone))
             is_JSONDecodeError
             (fun _ => ret (VStr (_format_response text_content),
                            conversation_id, VNone))
         else ret (VStr "No response from Genie Space.",
                   conversation_id, VNone))
    is_Exception
    (fun e =>
       match exn_cls e with
       | HTTPStatusError code =>
         if code =? 429
         then ret (VStr "", conversation_id, VStr high_demand_message)
         else ret (VStr "", conversation_id,
                   VStr ("Error querying Genie Space: " +:+ exn_str e))
       | _ => ret (VStr "", conversation_id,
                   VStr ("Error querying Genie Space: " +:+ exn_str e))
       end).

(** **** The conversation tracker *)

(** [GenieMCPClient.get_conversation_id]: [dict.get], [None] when the
    key is absent. *)
Definition get_conversation_id (session_id : string) : M value :=
  fun w =>
    (Ok (match conversation_ids w !! session_id with
         | Some v => v
         | None => VNone
         end), w).

(** [GenieMCPClient.clear_conversation]. *)
Definition clear_conversation (session_id : string) : M unit :=
  fun w =>
    match conversation_ids w !! session_id with
    | Some _ =>
      (Ok tt,
       {| conversation_ids := delete session_id (conversation_ids w);
          tokens_minted := tokens_minted w;
          requests := requests w;
          sleeps := sleeps w |})
    | None => (Ok tt, w)
    end.

End Client.

End Genie.

(** ** A decoder and an environment to run the client on

    [Json.loads] decodes the JSON texts that have no fractional or
    exponent part in their numbers and no [\u] escape in their strings,
    which is all the exchanges below use. *)

Module Json.

Import Genie.

Definition is_ws (c : ascii) : bool :=
  existsb (Ascii.eqb c) [" "%char; ascii_of_N 9; ascii_of_N 10; ascii_of_N 13].

Fixpoint skip_ws (s : list ascii) : list ascii :=
  match s with
  | c :: s' => if is_ws c then skip_ws s' else s
  | [] => []
  end.

Definition is_digit (c : ascii) : bool := Str.in_range 48 57 c.

Definition digit_value (c : ascii) : Z := Z.of_N (Str.code c) - 48.

Fixpoint read_digits (s : list ascii) (acc : Z) : Z * list ascii :=
  match s with
  | c :: s' => if is_digit c then read_digits s' (10 * acc + digit_value c)
               else (acc, s)
  | [] => (acc, [])
  end.

Definition ends_number (s : list ascii) : bool :=
  match s with
  | c :: _ => negb (existsb (Ascii.eqb c) ["."; "e"; "E"]%char)
  | [] => true
  end.

Definition read_int (s : list ascii) : option (Z * list ascii) :=
  match s with
  | c :: _ =>
    if is_digit c then
      let '(n, rest) := read_digits s 0 in
      if ends_number rest then Some (n, rest) else None
    else None
  | [] => None
  end.

Definition unescape (c : ascii) : option ascii :=
  if Ascii.eqb c "n" then Some (ascii_of_N 10)
  else if Ascii.eqb c "t" then Some (ascii_of_N 9)
  else if Ascii.eqb c "r" then Some (ascii_of_N 13)
  else if Ascii.eqb c "b" then Some (ascii_of_N 8)
  else if Ascii.eqb c "f" then Some (ascii_of_N 12)
  else if Ascii.eqb c "/" then Some c
  else if Ascii.eqb c "\" then Some c
  else if Ascii.eqb c (ascii_of_N 34) then Some c
  else None.

(** The characters of a string literal after its opening quote. *)
Fixpoint read_string (s : list ascii) (acc : list ascii)
  : option (string * list ascii) :=
  match s with
  | [] => None
  | c :: s' =>
    if Ascii.eqb c (ascii_of_N 34) then
      Some (string_of_list_ascii (rev acc), s')
    else if Ascii.eqb c "\" then
      match s' with
      | e :: s'' =>
        match unescape e with
        | Some x => read_string s'' (x :: acc)
        | None => None
        end
      | [] => None
      end
    else if (Str.code c <? 32)%N then None
    else read_string s' (c :: acc)
  end.

Fixpoint parse_value (n : nat) (s : list ascii)
  : option (value * list ascii) :=
  match n with
  | O => None
  | S n' =>
    match skip_ws s with
    | "{"%char :: s1 =>
      match skip_ws s1 with
      | "}"%char :: s2 => Some (VDict [], s2)
      | _ =>
        match parse_members n' s1 with
        | Some (items, s2) => Some (VDict items, s2)
        | None => None
        end
      end
    | "["%char :: s1 =>
      match skip_ws s1 with
      | "]"%char :: s2 => Some (VList [], s2)
      | _ =>
        match parse_elements n' s1 with
        | Some (items, s2) => Some (VList items, s2)
        | None => None
        end
      end
    | "t"%char :: "r"%char :: "u"%char :: "e"%char :: s1 =>
      Some (VBool true, s1)
    | "f"%char :: "a"%char :: "l"%char :: "s"%char :: "e"%char :: s1 =>
      Some (VBool false, s1)
    | "n"%char :: "u"%char :: "l"%char :: "l"%char :: s1 =>
      Some (VNone, s1)
    | "-"%char :: s1 =>
      match read_int s1 with
      | Some (k, s2) => Some (VInt (- k), s2)
      | None => None
      end
    | c :: s1 =>
      if Ascii.eqb c (ascii_of_N 34) then
        match read_string s1 [] with
        | Some (str, s2) => Some (VStr str, s2)
        | None => None
        end
      else
        match read_int (c :: s1) with
        | Some (k, s2) => Some (VInt k, s2)
        | None => None
        end
    | [] => None
    end
  end
with parse_elements (n : nat) (s : list ascii)
  : option (list value * list ascii) :=
  match n with
  | O => None
  | S n' =>
    match parse_value n' s with
    | Some (v, s1) =>
      match skip_ws s1 with
      | ","%char :: s2 =>
        match parse_elements n' s2 with
        | Some (vs, s3) => Some (v :: vs, s3)
        | None => None
        end
      | "]"%char :: s2 => Some ([v], s2)
      | _ => None
      end
    | None => None
    end
  end
with parse_members (n : nat) (s : list ascii)
  : option (list (string * value) * list ascii) :=
  match n with
  | O => None
  | S n' =>
    match skip_ws s with
    | q :: s0 =>
      if Ascii.eqb q (ascii_of_N 34) then
        match read_string s0 [] with
        | Some (key, s1) =>
          match skip_ws s1 with
          | ":"%char :: s2 =>
            match parse_value n' s2 with
            | Some (v, s3) =>
              match skip_ws s3 with
              | ","%char :: s4 =>
                match parse_members n' s4 with
                | Some (items, s5) => Some ((key, v) :: items, s5)
                | None => None
                end
              | "}"%char :: s4 => Some ([(key, v)], s4)
              | _ => None
              end
            | None => None
            end
          | _ => None
          end
        | None => None
        end
      else None
    | [] => None
    end
  end.

Definition loads (text : string) : option value :=
  let s := Str.chars text in
  match parse_value (2 * List.length s + 2) s with
  | Some (v, rest) =>
    match skip_ws rest with
    | [] => Some v
    | _ => None
    end
  | None => None
  end.

(** A compact encoder, the inverse of [loads] on the texts it
    produces; [float_str] prints the floats. *)
Definition quote : string := String (ascii_of_N 34) EmptyString.

Fixpoint escape (s : string) : string :=
  match s with
  | EmptyString => EmptyString
  | String c s' =>
    if Ascii.eqb c (ascii_of_N 34) || Ascii.eqb c "\"
    then String "\" (String c (escape s'))
    else String c (escape s')
  end.

Definition dumps_str (s : string) : string := quote +:+ escape s +:+ quote.

Fixpoint dumps (float_str : float -> string) (v : value) : string :=
  match v with
  | VNone => "null"
  | VBool true => "true"
  | VBool false => "false"
  | VInt n => Py.str_of_int n
  | VFloat x => float_str x
  | VStr s => dumps_str s
  | VList l =>
    "[" +:+
    (fix go (l : list value) : string :=
       match l with
       | [] => ""
       | [x] => dumps float_str x
       | x :: l' => dumps float_str x +:+ ", " +:+ go l'
       end) l +:+ "]"
  | VDict d =>
    "{" +:+
    (fix go (d : list (string * value)) : string :=
       match d with
       | [] => ""
       | [(k, x)] => dumps_str k +:+ ": " +:+ dumps float_str x
       | (k, x) :: d' =>
         dumps_str k +:+ ": " +:+ dumps float_str x +:+ ", " +:+ go d'
       end) d +:+ "}"
  end%string.

End Json.

(** Concrete surroundings for running the client. *)
Module Sample.

Import Genie.
Local Open Scope string_scope.

(** A runtime whose [to_markdown] always raises, as it does when the
    table printer is not installed, so that tables fall back to JSON;
    no float occurs in the exchanges below. *)
Definition runtime : Runtime := {|
  GENIE_SPACE_ID := "space";
  json_loads := Json.loads;
  json_dumps := Json.dumps (fun _ => "nan");
  to_markdown := fun _ => None;
  float_str := fun _ => "nan"
|}.

(** A 2xx answer whose body decodes to [body]. *)
Definition answer (body : value) : Response := {|
  status_code := 200;
  status_error := "";
  json := Ok body
|}.

(** A tool result whose first content item carries [v] as JSON text. *)
Definition tool_result (v : value) : Response :=
  answer (VDict [("result",
                  VDict [("content",
                          VList [VDict [("type", VStr "text");
                                        ("text", VStr (json_dumps runtime v))]])])]).

(** A body with a top-level error of the given message. *)
Definition error_body (message : string) : value :=
  VDict [("error", VDict [("message", VStr message)])].

Definition with_status (code : Z) (r : Response) : Response := {|
  status_code := code;
  status_error := "HTTP status " +:+ Py.str_of_int code;
  json := json r
|}.

Definition pending : Response :=
  tool_result (VDict [("status", VStr "pending")]).

Definition completed (text : string) : Response :=
  tool_result (VDict [("status", VStr "completed");
                      ("response", VStr text)]).

(** The service answers its [n]-th request with the [n]-th entry of
    [answers], and with [otherwise] after that; tokens are always
    issued. *)
Definition scripted (answers : list (outcome Response))
           (otherwise : outcome Response) : Env := {|
  get_token := fun _ => Ok "token";
  post := fun history =>
            nth (List.length history - 1) answers otherwise
|}.

Definition always (r : Response) : Env := scripted [] (Ok r).

Definition fresh : world := {|
  conversation_ids := ∅;
  tokens_minted := 0;
  requests := [];
  sleeps := []
|}.

End Sample.
(** ** Notions the statements about the client use *)

Module GenieSpec.

Import Genie.
Local Open Scope string_scope.
Local Open Scope Z_scope.

(** [None] or a string. *)
Definition optional_str (v : value) : bool :=
  match v with
  | VNone | VStr _ => true
  | _ => false
  end.

(** A 2xx status. *)
Definition success (r : Response) : bool :=
  (200 <=? status_code r) && (status_code r <=? 299).

(** The text of the first content item of a body. *)
Definition content_text (body : list (string * value)) : option string :=
  match lookup_key "result" body with
  | Some (VDict res) =>
    match lookup_key "content" res with
    | Some (VList (VDict item :: _)) =>
      match lookup_key "text" item with
      | Some (VStr t) => Some t
      | Some _ => None
      | None => Some ""
      end
    | _ => None
    end
  | _ => None
  end.

(** The object that this text decodes to. *)
Definition parsed_reply (rt : Runtime) (body : list (string * value))
  : option (list (string * value)) :=
  match content_text body with
  | Some t =>
    match json_loads rt t with
    | Some (VDict parsed) => Some parsed
    | _ => None
    end
  | None => None
  end.

(** The request of one poll. *)
Definition poll_request (rt : Runtime) (token : string)
           (conversation_id message_id : value) : Request := {|
  headers := [("Authorization", "Bearer " +:+ token);
              ("Content-Type", "application/json")];
  payload := tools_call ("poll_response_" +:+ GENIE_SPACE_ID rt)
                        [("conversation_id", conversation_id);
                         ("message_id", message_id)]
|}.

(** [needle] occurs in [message], letter case aside. *)
Definition mentions (needle message : string) : bool :=
  Str.contains_s needle (Str.lower_s message).

Definition default (d : value) (o : option value) : value :=
  match o with
  | Some v => v
  | None => d
  end.

(** The transition of the poll loop on one answer, after the
    specification: [Next] stays in POLLING, [Return] leaves the loop
    with the text and the error of a final state. *)
Definition verdict (rt : Runtime) (r : Response) : ctl (value * value) :=
  if negb (success r) then Next
  else
    match json r with
    | Ok (VDict body) =>
      match lookup_key "error" body with
      | Some (VDict err) =>
        match default (VStr "Unknown error") (lookup_key "message" err) with
        | VStr message =>
          if mentions "expired" message || mentions "not found" message
          then Return (VStr "", VStr expired_message)
          else Return (VStr "", VStr message)
        | _ => Next
        end
      | Some _ => Next
      | None =>
        match content_text body, parsed_reply rt body with
        | Some text, Some parsed =>
          match default (VStr "") (lookup_key "status" parsed) with
          | VStr st =>
            if in_strings (Str.lower_s st) ["completed"; "complete"] then
              Return (VStr (_format_response
                              rt (default (VStr text)
                                          (lookup_key "response" parsed))),
                      VNone)
            else if in_strings (Str.lower_s st) ["error"; "failed"] then
              Return (VStr "",
                      default (VStr "Query failed") (lookup_key "error" parsed))
            else Next
          | _ => Next
          end
        | _, _ => Next
        end
      end
    | _ => Next
    end.

(** What the loop sleeps after an answer. *)
Definition pause (rt : Runtime) (interval : float) (r : Response)
  : list float :=
  if status_code r =? 429 then [(interval * 2)%float]
  else match verdict rt r with
       | Next => [interval]
       | Return _ => []
       end.

(** The outcomes of a poll after which the loop goes on: a failed
    request, a rate-limited answer, and an answer on which the
    transition stays in POLLING. *)
Definition keeps_polling (rt : Runtime) (o : outcome Response) : bool :=
  match o with
  | Raise _ => true
  | Ok r =>
    (status_code r =? 429)
    || match verdict rt r with
       | Next => true
       | Return _ => false
       end
  end.

(** The request of the query itself. *)
Definition query_request (rt : Runtime) (token query : string)
           (conversation_id : option string) : Request := {|
  headers := [("Authorization", "Bearer " +:+ token);
              ("Content-Type", "application/json")];
  payload :=
    tools_call ("query_space_" +:+ GENIE_SPACE_ID rt)
               (List.app [("query", VStr query)]
                         (if truthy (of_optional conversation_id)
                          then [("conversation_id",
                                 of_optional conversation_id)]
                          else []))
|}.

(** The conversation id that an answer to the query carries: the
    answer has a 2xx status, its body has no top-level error, and the
    text of its first content item decodes to an object with a
    non-empty [conversation_id]. *)
Definition carried_conversation_id (rt : Runtime) (r : Response)
  : option value :=
  if negb (success r) then None
  else
    match json r with
    | Ok (VDict body) =>
      match lookup_key "error" body with
      | Some _ => None
      | None =>
        match parsed_reply rt body with
        | Some parsed =>
          match lookup_key "conversation_id" parsed with
          | Some v => if truthy v then Some v else None
          | None => None
          end
        | None => None
        end
      end
    | _ => None
    end.

(** The fields that the client relays are strings or absent: the
    message of a top-level error, and the [conversation_id] and [error]
    of a decoded reply. *)
Definition typed_fields (rt : Runtime) (r : Response) : bool :=
  match json r with
  | Ok (VDict body) =>
    match lookup_key "error" body with
    | Some (VDict err) => optional_str (default VNone (lookup_key "message" err))
    | Some _ => true
    | None =>
      match parsed_reply rt body with
      | Some parsed =>
        optional_str (default VNone (lookup_key "conversation_id" parsed))
        && optional_str (default VNone (lookup_key "error" parsed))
      | None => true
      end
    end
  | _ => true
  end.

(** [needle] occurs in [message] as a substring, letter case aside. *)
Definition occurs_ignoring_case (needle message : string) : Prop :=
  exists pre mid post : list ascii,
    Str.chars message = List.app pre (List.app mid post)
    /\ Str.lower mid = Str.chars needle.

(** The world after one pass of the loop. *)
Definition touched (w : world) (reqs : list Request) (sl : list float)
  : world :=
  {| conversation_ids := conversation_ids w;
     tokens_minted := S (tokens_minted w);
     requests := reqs;
     sleeps := sl |}.

(** The result is a triple whose text is a string. *)
Definition is_text_triple (r : outcome (value * value * value)) : bool :=
  match r with
  | Ok (VStr _, _, _) => true
  | _ => false
  end.

(** The conversation id and the error of a result are strings or
    absent. *)
Definition optional_fields (r : outcome (value * value * value)) : bool :=
  match r with
  | Ok (_, cid, err) => optional_str cid && optional_str err
  | Raise _ => true
  end.

(** The number of requests issued so far. *)
Definition issued (w : world) : nat := List.length (requests w).

End GenieSpec.

(** ** Notions the statements about the router use *)

Module RouterSpec.

(** The confidence and the category that [classify_query] returns. *)
Definition confidence (query : string) : float :=
  snd (classify_query query_router query).

Definition category (query : string) : QueryType :=
  fst (classify_query query_router query).

(** The signed margin [dataMatches - generalMatches] of a query. *)
Definition margin (query : string) : Z :=
  data_matches_of query_router query - general_matches_of query_router query.

(** Two count pairs are of the same kind when both have no general
    match, both have no data match, or both have matches of both sets. *)
Definition same_kind (d1 g1 d2 g2 : Z) : bool :=
  ((g1 =? 0) && (g2 =? 0))
  || ((d1 =? 0) && (d2 =? 0))
  || ((0 <? d1) && (0 <? g1) && (0 <? d2) && (0 <? g2)).

Definition same_kind_queries (q1 q2 : string) : bool :=
  same_kind (data_matches_of query_router q1) (general_matches_of query_router q1)
            (data_matches_of query_router q2) (general_matches_of query_router q2).

(** Checks over every pair of counts that the two tables allow. *)
Definition for_all_counts (f : Z -> Z -> bool) : bool :=
  forallb (fun d => forallb (f d) (Py.range 28)) (Py.range 47).

Definition in_bounds (d g : Z) : bool :=
  Py.le 0.5%float (snd (tie_break d g))
  && Py.le (snd (tie_break d g)) 0.95%float.

(** [f] is non-decreasing on [0 .. n-1]. *)
Definition monotone_on (n : Z) (f : Z -> float) : bool :=
  forallb (fun a =>
             forallb (fun b => implb (a <=? b) (Py.le (f a) (f b)))
                     (Py.range n))
          (Py.range n).

(** The confidence as a function of the absolute margin, for each kind. *)
Definition data_only_confidence (m : Z) : float := snd (tie_break m 0).
Definition general_only_confidence (m : Z) : float := snd (tie_break 0 m).
Definition mixed_confidence (m : Z) : float := snd (tie_break (m + 1) 1).

End RouterSpec.

(** ** Further notions about the router *)

Module ExplanationSpec.

Import RouterSpec.

(** The percentage that the explanation shows, from the two counts. *)
Definition percent (d g : Z) : Z :=
  if (0 <? d) && (g =? 0) then Z.min (50 + 10 * d) 95
  else if (0 <? g) && (d =? 0) then Z.min (50 + 10 * g) 95
  else Z.min (50 + 5 * Z.abs (d - g)) 85.

(** The text that [get_routing_explanation] builds from a result. *)
Definition explanation_of (r : QueryType * float) : string :=
  match fst r with
  | DATA =>
    "Routing to Genie Space (data query, confidence: "
    +:+ Py.format_percent0 (snd r) +:+ ")"
  | GENERAL =>
    "Routing to Claude LLM (general query, confidence: "
    +:+ Py.format_percent0 (snd r) +:+ ")"
  end%string.

Definition expected_explanation (d g : Z) : string :=
  ((if Z.ltb g d
    then "Routing to Genie Space (data query, confidence: "
    else "Routing to Claude LLM (general query, confidence: ")
   +:+ Py.str_of_int (percent d g) +:+ "%)")%string.

Definition explanation_check (d g : Z) : bool :=
  String.eqb (explanation_of (tie_break d g)) (expected_explanation d g).

Definition blank (s : list ascii) : bool := forallb Str.is_space s.

End ExplanationSpec.

(** ** Further notions about the client *)

Module ClientSpec.

Import Genie GenieSpec.
Local Open Scope string_scope.
Local Open Scope Z_scope.



(** What [query_genie] returns when [e] is raised inside its [try]. *)
Definition failure (conversation_id : option string) (e : exn)
  : value * value * value :=
  match exn_cls e with
  | HTTPStatusError code =>
    if code =? 429
    then (VStr "", of_optional conversation_id, VStr high_demand_message)
    else (VStr "", of_optional conversation_id,
          VStr ("Error querying Genie Space: " +:+ exn_str e))
  | _ => (VStr "", of_optional conversation_id,
          VStr ("Error querying Genie Space: " +:+ exn_str e))
  end.



(** The world after the token and the request of the query, with the
    conversation ids [ids]. *)
Definition asked (w : world) (req : Request) (ids : gmap string value)
  : world :=
  {| conversation_ids := ids;
     tokens_minted := S (tokens_minted w);
     requests := req :: requests w;
     sleeps := sleeps w |}.

(** The conversation ids after a reply that carries [cid]. *)
Definition remembered (w : world) (session : string) (cid : value)
  : gmap string value :=
  if truthy cid then <[session := cid]> (conversation_ids w)
  else conversation_ids w.


(** The conversation id that the answer to the query carries, if the
    token is issued and the request is answered. *)
Definition carried_by (rt : Runtime) (env : Env) (query : string)
           (conv : option string) (w : world) : option value :=
  match get_token env (tokens_minted w) with
  | Ok token =>
    match post env (query_request rt token query conv :: requests w) with
    | Ok resp => carried_conversation_id rt resp
    | Raise _ => None
    end
  | Raise _ => None
  end.

End ClientSpec.

(** Further sample answers. *)
Module Replies.

Import Genie GenieSpec.
Local Open Scope string_scope.

(** The parts of a sample answer. *)
Definition body_of (r : Response) : list (string * value) :=
  match json r with
  | Ok (VDict body) => body
  | _ => []
  end.

Definition text_of (r : Response) : string :=
  match content_text (body_of r) with
  | Some t => t
  | None => ""
  end.

Definition parsed_of (r : Response) : list (string * value) :=
  match json_loads Sample.runtime (text_of r) with
  | Some (VDict parsed) => parsed
  | _ => []
  end.

(** A tool result whose text is not JSON. *)
Definition prose (text : string) : Response :=
  Sample.answer
    (VDict [("result",
             VDict [("content",
                     VList [VDict [("type", VStr "text");
                                   ("text", VStr text)]])])]).

(** A reply that starts a conversation and is still running. *)
Definition started : Response :=
  Sample.tool_result (VDict [("conversation_id", VStr "c-1");
                             ("message_id", VStr "m-1");
                             ("status", VStr "running")]).


End Replies.

(** * Properties of the query router *)

Module RouterFacts.

Lemma query_router_is_init : QueryRouter_init = Some query_router.
Proof. vm_compute. reflexivity. Qed.

Lemma sum_ones_from {A} (l : list A) (acc : Z) :
  fold_left Z.add (map (fun _ => 1) l) acc = acc + Z.of_nat (List.length l).
Proof.
  revert acc. induction l as [|x l IH]; intros acc; simpl.
  - lia.
  - rewrite IH. lia.
Qed.

(** The count is the number of patterns that match: each pattern
    contributes one or nothing. *)
Lemma count_matches_filter (patterns : list Re.regex) (text : list ascii) :
  count_matches patterns text =
  Z.of_nat (List.length (List.filter (fun p => Re.search p text) patterns)).
Proof.
  unfold count_matches, Py.sum. rewrite sum_ones_from. lia.
Qed.

Lemma filter_length_le {A} (f : A -> bool) (l : list A) :
  (List.length (List.filter f l) <= List.length l)%nat.
Proof.
  induction l as [|x l IH]; simpl; [lia|].
  destruct (f x); simpl; lia.
Qed.

Lemma count_matches_bounds (patterns : list Re.regex) (text : list ascii) :
  0 <= count_matches patterns text <= Py.len patterns.
Proof.
  rewrite count_matches_filter. unfold Py.len.
  pose proof (filter_length_le (fun p => Re.search p text) patterns). lia.
Qed.

Lemma data_matches_bounds (query : string) :
  0 <= data_matches_of query_router query <= 46.
Proof.
  unfold data_matches_of.
  pose proof (count_matches_bounds (data_patterns query_router)
                (Str.strip (Str.lower (Str.chars query)))) as H.
  change (Py.len (data_patterns query_router)) with 46 in H. exact H.
Qed.

Lemma general_matches_bounds (query : string) :
  0 <= general_matches_of query_router query <= 27.
Proof.
  unfold general_matches_of.
  pose proof (count_matches_bounds (general_patterns query_router)
                (Str.strip (Str.lower (Str.chars query)))) as H.
  change (Py.len (general_patterns query_router)) with 27 in H. exact H.
Qed.

Lemma classify_query_tie_break (self : QueryRouter) (query : string) :
  classify_query self query =
  tie_break (data_matches_of self query) (general_matches_of self query).
Proof. reflexivity. Qed.

(** Enumeration of an initial segment of the integers. *)
Lemma range_In (n z : Z) : 0 <= z < n -> In z (Py.range n).
Proof.
  intros H. unfold Py.range. apply in_map_iff.
  exists (Z.to_nat z). split; [lia|]. apply in_seq. lia.
Qed.

Lemma range_Forall (P : Z -> Prop) (n : Z) :
  Forall P (Py.range n) -> forall z, 0 <= z < n -> P z.
Proof.
  intros H z Hz. rewrite List.Forall_forall in H. apply H, range_In, Hz.
Qed.

Lemma range_forallb (f : Z -> bool) (n : Z) :
  forallb f (Py.range n) = true -> forall z, 0 <= z < n -> f z = true.
Proof.
  intros H z Hz. rewrite List.forallb_forall in H. apply H, range_In, Hz.
Qed.

(** On the counts that occur, the products of the source and those of
    the specification are the same floats. *)
Lemma tenth_comm (n : Z) :
  0 <= n < 47 ->
  (Py.float_of_int n * 0.1)%float = (0.1 * Py.float_of_int n)%float.
Proof.
  apply (range_Forall
           (fun n => (Py.float_of_int n * 0.1)%float
                     = (0.1 * Py.float_of_int n)%float) 47).
  vm_compute. repeat constructor.
Qed.

Lemma twentieth_comm (n : Z) :
  0 <= n < 47 ->
  (Py.float_of_int n * 0.05)%float = (0.05 * Py.float_of_int n)%float.
Proof.
  apply (range_Forall
           (fun n => (Py.float_of_int n * 0.05)%float
                     = (0.05 * Py.float_of_int n)%float) 47).
  vm_compute. repeat constructor.
Qed.

Import RouterSpec.

Lemma for_all_counts_spec (f : Z -> Z -> bool) :
  for_all_counts f = true ->
  forall d g, 0 <= d <= 46 -> 0 <= g <= 27 -> f d g = true.
Proof.
  intros H d g Hd Hg. unfold for_all_counts in H.
  apply (range_forallb (f d) 28); [|lia].
  apply (range_forallb (fun d => forallb (f d) (Py.range 28)) 47 H). lia.
Qed.

Lemma tie_break_in_bounds (d g : Z) :
  0 <= d <= 46 -> 0 <= g <= 27 ->
  Py.le 0.5%float (snd (tie_break d g)) = true
  /\ Py.le (snd (tie_break d g)) 0.95%float = true.
Proof.
  intros Hd Hg.
  assert (for_all_counts in_bounds = true) as H by (vm_compute; reflexivity).
  pose proof (for_all_counts_spec _ H d g Hd Hg) as B.
  unfold in_bounds in B. apply andb_true_iff in B. exact B.
Qed.

Lemma monotone_on_spec (n : Z) (f : Z -> float) :
  monotone_on n f = true ->
  forall a b, 0 <= a -> a <= b -> b < n -> Py.le (f a) (f b) = true.
Proof.
  intros H a b Ha Hab Hb. unfold monotone_on in H.
  pose proof (range_forallb _ n H a (conj Ha (Z.le_lt_trans _ _ _ Hab Hb))) as H1.
  cbv beta in H1.
  pose proof (range_forallb _ n H1 b (conj (Z.le_trans _ _ _ Ha Hab) Hb)) as H2.
  cbv beta in H2.
  apply Z.leb_le in Hab. rewrite Hab in H2. exact H2.
Qed.

(** With matches of both sets the confidence depends on the absolute
    margin only. *)
Lemma mixed_confidence_eq (d g : Z) :
  0 < d -> 0 < g ->
  snd (tie_break d g) = mixed_confidence (Z.abs (d - g)).
Proof.
  intros Hd Hg. unfold mixed_confidence, tie_break.
  replace (g =? 0) with false by (symmetry; apply Z.eqb_neq; lia).
  replace (d =? 0) with false by (symmetry; apply Z.eqb_neq; lia).
  replace (1 =? 0) with false by reflexivity.
  replace (Z.abs (d - g) + 1 =? 0) with false
    by (symmetry; apply Z.eqb_neq; lia).
  rewrite !andb_false_r. cbv iota.
  destruct (Z.ltb_spec g d) as [L|L].
  - replace (1 <? Z.abs (d - g) + 1) with true
      by (symmetry; apply Z.ltb_lt; lia).
    cbv zeta iota. simpl snd.
    replace (Z.abs (d - g) + 1 - 1) with (d - g) by lia. reflexivity.
  - destruct (Z.ltb_spec d g) as [L'|L'].
    + replace (1 <? Z.abs (d - g) + 1) with true
        by (symmetry; apply Z.ltb_lt; lia).
      cbv zeta iota. simpl snd.
      replace (Z.abs (d - g) + 1 - 1) with (g - d) by lia. reflexivity.
    + replace (Z.abs (d - g)) with 0 by lia. reflexivity.
Qed.

Lemma tie_break_monotone (d1 g1 d2 g2 : Z) :
  0 <= d1 <= 46 -> 0 <= g1 <= 27 -> 0 <= d2 <= 46 -> 0 <= g2 <= 27 ->
  same_kind d1 g1 d2 g2 = true ->
  Z.abs (d1 - g1) <= Z.abs (d2 - g2) ->
  Py.le (snd (tie_break d1 g1)) (snd (tie_break d2 g2)) = true.
Proof.
  intros H1 H2 H3 H4 K Hm. unfold same_kind in K.
  apply orb_true_iff in K. destruct K as [K|K];
    [apply orb_true_iff in K; destruct K as [K|K]|].
  - apply andb_true_iff in K. destruct K as [Ka Kb].
    apply Z.eqb_eq in Ka, Kb. subst g1 g2.
    apply (monotone_on_spec 47 data_only_confidence); [|lia|lia|lia].
    vm_compute. reflexivity.
  - apply andb_true_iff in K. destruct K as [Ka Kb].
    apply Z.eqb_eq in Ka, Kb. subst d1 d2.
    apply (monotone_on_spec 28 general_only_confidence); [|lia|lia|lia].
    vm_compute. reflexivity.
  - rewrite !andb_true_iff in K. destruct K as [[[Ka Kb] Kc] Kd].
    apply Z.ltb_lt in Ka, Kb, Kc, Kd.
    rewrite (mixed_confidence_eq d1 g1 Ka Kb), (mixed_confidence_eq d2 g2 Kc Kd).
    apply (monotone_on_spec 47 mixed_confidence); [|lia|lia|lia].
    vm_compute. reflexivity.
Qed.

(** The notions of [RouterSpec] in terms of the two counts.  The
    equations are rewritten with, never unfolded, so that no proof
    compares two copies of a count on an unknown query. *)
Lemma confidence_eq (q : string) :
  confidence q =
  snd (tie_break (data_matches_of query_router q)
                 (general_matches_of query_router q)).
Proof. unfold confidence. rewrite classify_query_tie_break. reflexivity. Qed.

Lemma category_eq (q : string) :
  category q =
  fst (tie_break (data_matches_of query_router q)
                 (general_matches_of query_router q)).
Proof. unfold category. rewrite classify_query_tie_break. reflexivity. Qed.

Lemma margin_eq (q : string) :
  margin q =
  data_matches_of query_router q - general_matches_of query_router q.
Proof. unfold margin. reflexivity. Qed.

Lemma same_kind_queries_eq (q1 q2 : string) :
  same_kind_queries q1 q2 =
  same_kind (data_matches_of query_router q1)
            (general_matches_of query_router q1)
            (data_matches_of query_router q2)
            (general_matches_of query_router q2).
Proof. unfold same_kind_queries. reflexivity. Qed.

Lemma confidence_in_bounds (query : string) :
  Py.le 0.5%float (confidence query) = true
  /\ Py.le (confidence query) 0.95%float = true.
Proof.
  rewrite confidence_eq.
  apply tie_break_in_bounds;
    [apply data_matches_bounds | apply general_matches_bounds].
Qed.

Lemma confidence_monotone (q1 q2 : string) :
  same_kind_queries q1 q2 = true ->
  Z.abs (margin q1) <= Z.abs (margin q2) ->
  Py.le (confidence q1) (confidence q2) = true.
Proof.
  rewrite same_kind_queries_eq, !margin_eq, !confidence_eq.
  apply tie_break_monotone;
    first [apply data_matches_bounds | apply general_matches_bounds].
Qed.

Lemma ge_le (a b : float) : Py.ge a b = Py.le b a.
Proof. reflexivity. Qed.

Lemma confidence_at_least_half (query : string) :
  Py.ge (confidence query) 0.5%float = true.
Proof. rewrite ge_le. apply confidence_in_bounds. Qed.

Lemma should_route_eq (query : string) :
  should_route_to_genie query_router query =
  QueryType_eqb (category query) DATA && Py.ge (confidence query) 0.5%float.
Proof.
  unfold should_route_to_genie, category, confidence.
  destruct (classify_query query_router query) as [t c]. reflexivity.
Qed.

End RouterFacts.

Section RouterClaims.

Import RouterSpec RouterFacts.

Local Abbreviation d_of := (data_matches_of query_router).
Local Abbreviation g_of := (general_matches_of query_router).

(** C1: [classify_query] applies the five tie-break rules in order, the
    first rule whose condition holds deciding the result: data matches
    only give [DATA] with [min(0.5 + 0.1*d, 0.95)]; general matches only
    give [GENERAL] with [min(0.5 + 0.1*g, 0.95)]; more data than general
    matches give [DATA] with [min(0.5 + 0.05*(d-g), 0.85)]; more general
    than data matches give [GENERAL] with [min(0.5 + 0.05*(g-d), 0.85)];
    otherwise, which is when both counts are zero or equal and nonzero,
    the result is [GENERAL] at 0.5.  Each count is the number of
    patterns of its table that match the lowercased, trimmed query. *)
Theorem classify_query_rules (query : string) :
  let text := Str.strip (Str.lower (Str.chars query)) in
  let d := d_of query in
  let g := g_of query in
  let rule1 := 0 < d /\ g = 0 in
  let rule2 := 0 < g /\ d = 0 in
  let rule3 := g < d in
  let rule4 := d < g in
  (d = Z.of_nat (List.length
                   (List.filter (fun p => Re.search p text)
                                (data_patterns query_router)))
   /\ g = Z.of_nat (List.length
                      (List.filter (fun p => Re.search p text)
                                   (general_patterns query_router))))
  /\ (rule1 ->
      classify_query query_router query =
      (DATA, Py.min (0.5 + 0.1 * Py.float_of_int d)%float 0.95%float))
  /\ (~ rule1 -> rule2 ->
      classify_query query_router query =
      (GENERAL, Py.min (0.5 + 0.1 * Py.float_of_int g)%float 0.95%float))
  /\ (~ rule1 -> ~ rule2 -> rule3 ->
      classify_query query_router query =
      (DATA, Py.min (0.5 + 0.05 * Py.float_of_int (d - g))%float 0.85%float))
  /\ (~ rule1 -> ~ rule2 -> ~ rule3 -> rule4 ->
      classify_query query_router query =
      (GENERAL, Py.min (0.5 + 0.05 * Py.float_of_int (g - d))%float 0.85%float))
  /\ (~ rule1 -> ~ rule2 -> ~ rule3 -> ~ rule4 ->
      classify_query query_router query = (GENERAL, 0.5%float)
      /\ ((d = 0 /\ g = 0) \/ (d = g /\ d <> 0))).
Proof.
  cbv zeta.
  pose proof (data_matches_bounds query) as Hd.
  pose proof (general_matches_bounds query) as Hg.
  rewrite classify_query_tie_break.
  split; [split; apply count_matches_filter|].
  unfold tie_break.
  repeat split.
  - intros [H1 H2].
    replace (0 <? d_of query) with true by (symmetry; apply Z.ltb_lt; lia).
    replace (g_of query =? 0) with true by (symmetry; apply Z.eqb_eq; lia).
    simpl. rewrite tenth_comm by lia. reflexivity.
  - intros N1 [H1 H2].
    replace (0 <? d_of query) with false by (symmetry; apply Z.ltb_ge; lia).
    replace (0 <? g_of query) with true by (symmetry; apply Z.ltb_lt; lia).
    replace (d_of query =? 0) with true by (symmetry; apply Z.eqb_eq; lia).
    simpl. rewrite tenth_comm by lia. reflexivity.
  - intros N1 N2 H3.
    replace (g_of query =? 0) with false by (symmetry; apply Z.eqb_neq; lia).
    replace (d_of query =? 0) with false by (symmetry; apply Z.eqb_neq; lia).
    replace (g_of query <? d_of query) with true
      by (symmetry; apply Z.ltb_lt; lia).
    rewrite !andb_false_r. cbv iota zeta.
    rewrite twentieth_comm by lia. reflexivity.
  - intros N1 N2 N3 H4.
    replace (g_of query =? 0) with false by (symmetry; apply Z.eqb_neq; lia).
    replace (d_of query =? 0) with false by (symmetry; apply Z.eqb_neq; lia).
    replace (g_of query <? d_of query) with false
      by (symmetry; apply Z.ltb_ge; lia).
    replace (d_of query <? g_of query) with true
      by (symmetry; apply Z.ltb_lt; lia).
    rewrite !andb_false_r. cbv iota zeta.
    rewrite twentieth_comm by lia. reflexivity.
  - assert (d_of query = g_of query) as E by lia.
    destruct (Z.eq_dec (g_of query) 0) as [Z0|NZ].
    + rewrite E, Z0. reflexivity.
    + replace (g_of query =? 0) with false by (symmetry; apply Z.eqb_neq; lia).
      replace (d_of query =? 0) with false by (symmetry; apply Z.eqb_neq; lia).
      rewrite E, Z.ltb_irrefl, !andb_false_r. reflexivity.
  - lia.
Qed.

(** The first rule at a query that matches three data patterns. *)
Lemma classify_query_rules_witness :
  classify_query query_router "how many clients have a housing risk flag" =
  (DATA, Py.min (0.5 + 0.1 * Py.float_of_int 3)%float 0.95%float).
Proof.
  apply (proj1 (proj2 (classify_query_rules
                         "how many clients have a housing risk flag"))).
  vm_compute. split; reflexivity.
Defined.

(** C4, as the specification states it, fails: a query with five
    general matches and no data match has margin -5 and confidence 0.95,
    the empty query has the larger margin 0 and the strictly smaller
    confidence 0.5. *)
Lemma confidence_not_monotone_in_signed_margin :
  margin "explain define opinion recommend advice" < margin ""
  /\ PrimFloat.ltb (confidence "")
                   (confidence "explain define opinion recommend advice")
     = true.
Proof. vm_compute. split; reflexivity. Qed.

(** C4, amended: for every query the confidence lies in [0.5, 0.95];
    and between two queries of the same kind (both without general
    matches, both without data matches, or both with matches of both
    sets) the confidence is non-decreasing in the absolute margin
    [|dataMatches - generalMatches|]. *)
Theorem confidence_bounds_and_monotone (q1 q2 : string) :
  (Py.le 0.5%float (confidence q1) = true
   /\ Py.le (confidence q1) 0.95%float = true)
  /\ (same_kind_queries q1 q2 = true ->
      Z.abs (margin q1) <= Z.abs (margin q2) ->
      Py.le (confidence q1) (confidence q2) = true).
Proof.
  split.
  - apply confidence_in_bounds.
  - apply confidence_monotone.
Qed.

(** Two data-only queries with two and with three matches. *)
Lemma confidence_bounds_and_monotone_witness :
  Py.le (confidence "how many clients")
        (confidence "how many clients have a housing risk flag") = true.
Proof.
  apply (proj2 (confidence_bounds_and_monotone
                  "how many clients"
                  "how many clients have a housing risk flag")).
  - vm_compute. reflexivity.
  - vm_compute. discriminate.
Defined.

(** C5, as the specification states it, fails on its second query: only
    the pattern [\bexplain\b] matches it, and the confidence is
    [0.5 + 0.1], below 0.7. *)
Lemma explain_query_confidence_below_07 :
  ~ (category "explain how neural networks work" = GENERAL
     /\ Py.ge (confidence "explain how neural networks work") 0.7%float = true).
Proof. vm_compute. intros [_ H]. discriminate H. Qed.

(** C5, amended: the query "how many clients have a housing risk flag"
    is classified [DATA] with confidence 0.8, which is at least 0.7; the
    query "explain how neural networks work" is classified [GENERAL]
    with confidence 0.6. *)
Theorem example_queries_classification :
  (classify_query query_router "how many clients have a housing risk flag"
   = (DATA, 0.8%float)
   /\ Py.ge 0.8%float 0.7%float = true)
  /\ classify_query query_router "explain how neural networks work"
     = (GENERAL, 0.6%float).
Proof. vm_compute. repeat split. Qed.

(** C6: [should_route_to_genie] is true exactly when [classify_query]
    returns [DATA] with a confidence of at least 0.5; the confidence is
    never below 0.5, so it is true exactly when the category is [DATA]. *)
Theorem should_route_to_genie_iff (query : string) :
  (should_route_to_genie query_router query = true <->
   category query = DATA /\ Py.ge (confidence query) 0.5%float = true)
  /\ Py.ge (confidence query) 0.5%float = true
  /\ (should_route_to_genie query_router query = true <->
      category query = DATA).
Proof.
  pose proof (confidence_at_least_half query) as Hc.
  assert (should_route_to_genie query_router query = true <->
          category query = DATA /\ Py.ge (confidence query) 0.5%float = true)
    as Hiff.
  { rewrite should_route_eq, andb_true_iff.
    generalize (Py.ge (confidence query) 0.5%float).
    generalize (category query).
    intros t b. destruct t; simpl; intuition congruence. }
  split; [exact Hiff|]. split; [exact Hc|].
  rewrite Hiff. split; [intros [H _]; exact H | intros H; split; [exact H | exact Hc]].
Qed.

End RouterClaims.

(** * Properties of the Genie client *)

Section TrackerClaims.

Import Genie.

(** C8: after the entry of a session is set to [c], the lookup returns
    [c]; after [clear_conversation] the lookup returns [None], and
    clearing an absent session changes nothing; after two assignments
    the lookup returns the second value. *)
Theorem conversation_tracker_laws (s : string) (c c1 c2 : value) (w : world) :
  fst (get_conversation_id s (snd (set_conversation_id s c w))) = Ok c
  /\ fst (get_conversation_id s (snd (clear_conversation s w))) = Ok VNone
  /\ (conversation_ids w !! s = None -> clear_conversation s w = (Ok tt, w))
  /\ fst (get_conversation_id s
            (snd (set_conversation_id s c2
                    (snd (set_conversation_id s c1 w))))) = Ok c2.
Proof.
  repeat split.
  - unfold get_conversation_id, set_conversation_id. simpl.
    rewrite lookup_insert_eq. reflexivity.
  - unfold get_conversation_id, clear_conversation.
    destruct (conversation_ids w !! s) as [v|] eqn:E; simpl.
    + rewrite lookup_delete_eq. reflexivity.
    + rewrite E. reflexivity.
  - intros E. unfold clear_conversation. rewrite E. reflexivity.
  - unfold get_conversation_id, set_conversation_id. simpl.
    rewrite lookup_insert_eq. reflexivity.
Qed.

(** Clearing a session that a fresh client has never seen. *)
Lemma conversation_tracker_laws_witness :
  clear_conversation "session-1" Sample.fresh = (Ok tt, Sample.fresh).
Proof.
  apply (proj1 (proj2 (proj2 (conversation_tracker_laws
                                "session-1" VNone VNone VNone Sample.fresh)))).
  reflexivity.
Defined.

End TrackerClaims.

Section FormatClaims.

Import Genie.

(** C9: when [json.loads] fails on a string, [_format_response] returns
    the string unchanged; hence formatting such a string a second time
    changes nothing. *)
Theorem format_response_plain_text (rt : Runtime) (s : string) :
  json_loads rt s = None ->
  _format_response rt (VStr s) = s
  /\ _format_response rt (VStr (_format_response rt (VStr s)))
     = _format_response rt (VStr s).
Proof.
  intros E.
  assert (_format_response rt (VStr s) = s) as H.
  { unfold _format_response. rewrite E. reflexivity. }
  split; [exact H|]. rewrite H. exact H.
Qed.

(** A sentence is not JSON. *)
Lemma format_response_plain_text_witness :
  _format_response Sample.runtime (VStr "The query returned 3 rows.")
  = "The query returned 3 rows."%string.
Proof.
  apply (format_response_plain_text Sample.runtime).
  vm_compute. reflexivity.
Defined.

End FormatClaims.

(** ** Facts about the client

    The proofs follow the evaluation of the code: [run] splits on the
    value under evaluation on the left of an equation, in evaluation
    order, until both sides are the same. *)

Module GenieFacts.

Import Genie GenieSpec.
Local Open Scope string_scope.
Local Open Scope Z_scope.

Lemma nonempty_none : nonempty VNone = Ok false.
Proof. reflexivity. Qed.

Lemma nonempty_bool b :
  nonempty (VBool b) =
  if b then Raise (mk_exn TypeError "object of type 'bool' has no len()")
  else Ok false.
Proof. reflexivity. Qed.

Lemma nonempty_int n :
  nonempty (VInt n) =
  if Z.eqb n 0 then Ok false
  else Raise (mk_exn TypeError "object of type 'int' has no len()").
Proof. unfold nonempty. cbn [truthy py_len]. destruct (Z.eqb n 0); reflexivity. Qed.

Lemma nonempty_float x :
  nonempty (VFloat x) =
  if PrimFloat.eqb x 0 then Ok false
  else Raise (mk_exn TypeError "object of type 'float' has no len()").
Proof.
  unfold nonempty. cbn [truthy py_len]. destruct (PrimFloat.eqb x 0); reflexivity.
Qed.

Lemma nonempty_str s :
  nonempty (VStr s) =
  match s with EmptyString => Ok false | String _ _ => Ok true end.
Proof.
  destruct s; [reflexivity|].
  unfold nonempty, py_len; cbn [truthy String.length String.eqb negb];
    first [reflexivity | f_equal; apply Z.ltb_lt; lia].
Qed.

Lemma nonempty_list l :
  nonempty (VList l) = match l with [] => Ok false | _ :: _ => Ok true end.
Proof.
  destruct l; [reflexivity|].
  unfold nonempty, py_len, Py.len; cbn [truthy List.length];
    first [reflexivity | f_equal; apply Z.ltb_lt; lia].
Qed.

Lemma nonempty_dict d :
  nonempty (VDict d) = match d with [] => Ok false | _ :: _ => Ok true end.
Proof.
  destruct d; [reflexivity|].
  unfold nonempty, py_len, Py.len; cbn [truthy List.length];
    first [reflexivity | f_equal; apply Z.ltb_lt; lia].
Qed.

Lemma raise_for_status_success r :
  raise_for_status r =
  if success r then Ok tt
  else Raise (mk_exn (HTTPStatusError (status_code r)) (status_error r)).
Proof. reflexivity. Qed.

Ltac norm_core :=
  cbv beta iota zeta delta
      [bind lift ret raise try_except _get_headers client_post sleep
       set_conversation_id
       is_Exception is_JSONDecodeError
       py_in py_get py_lower py_getitem0 loads raise_for_status success
       verdict pause content_text parsed_reply default mentions
       touched carried_conversation_id typed_fields keeps_polling
       query_request];
  cbn [conversation_ids tokens_minted requests sleeps negb andb orb fst snd
       List.app exn_cls exn_str lookup_key].

Ltac norm :=
  norm_core;
  repeat (progress rewrite ?nonempty_none, ?nonempty_bool, ?nonempty_int,
                           ?nonempty_float, ?nonempty_str, ?nonempty_list,
                           ?nonempty_dict;
          norm_core).

Ltac go x := destruct x eqn:?; norm; try reflexivity.

Ltac scrutinee t :=
  lazymatch t with
  | nonempty ?x => scrutinee x
  | truthy ?x =>
    match x with
    | _ => let _ := match goal with _ => is_var x end in constr:(t)
    | _ => scrutinee x
    end
  | exn_cls ?x => scrutinee x
  | match ?x with HTTPStatusError _ => _ | _ => _ end => scrutinee x
  | (match ?x with HTTPStatusError _ => _ | _ => _ end) _ => scrutinee x
  | conversation_ids ?x => scrutinee x
  | is_text_triple ?x => scrutinee x
  | optional_fields ?x => scrutinee x
  | fst ?x => scrutinee x
  | snd ?x => scrutinee x
  | match ?x with Ok _ => _ | Raise _ => _ end => scrutinee x
  | match ?x with pair _ _ => _ end => scrutinee x
  | if ?x then _ else _ => scrutinee x
  | match ?x with Return _ => _ | Next => _ end => scrutinee x
  | match ?x with Some _ => _ | None => _ end => scrutinee x
  | match ?x with VNone => _ | _ => _ end => scrutinee x
  | match ?x with nil => _ | cons _ _ => _ end => scrutinee x
  | match ?x with EmptyString => _ | String _ _ => _ end => scrutinee x
  | (match ?x with Ok _ => _ | Raise _ => _ end) _ => scrutinee x
  | (match ?x with pair _ _ => _ end) _ => scrutinee x
  | (if ?x then _ else _) _ => scrutinee x
  | (match ?x with Return _ => _ | Next => _ end) _ => scrutinee x
  | (match ?x with Some _ => _ | None => _ end) _ => scrutinee x
  | (match ?x with VNone => _ | _ => _ end) _ => scrutinee x
  | _ => t
  end.

Ltac run :=
  repeat (norm; try reflexivity;
          lazymatch goal with
          | |- ?lhs = _ =>
            let x := scrutinee lhs in
            lazymatch x with
            | (_, _) => fail
            | true => fail
            | false => fail
            | Ok _ => fail
            | Raise _ => fail
            | _ => tryif is_var x then destruct x else destruct x eqn:?
            end
          end).

(** One pass of the loop does what the transition of the
    specification says. *)
Lemma poll_attempt_run rt env tool conv msg interval attempt w :
  poll_attempt rt env tool conv msg interval attempt w =
  match get_token env (tokens_minted w) with
  | Raise e => (Ok Next, touched w (requests w) (interval :: sleeps w))
  | Ok token =>
    let req := {| headers := [("Authorization", "Bearer " +:+ token);
                              ("Content-Type", "application/json")];
                  payload := tools_call tool [("conversation_id", conv);
                                              ("message_id", msg)] |} in
    match post env (req :: requests w) with
    | Raise e =>
      (Ok Next, touched w (req :: requests w) (interval :: sleeps w))
    | Ok resp =>
      (Ok (if status_code resp =? 429 then Next else verdict rt resp),
       touched w (req :: requests w) (pause rt interval resp ++ sleeps w))
    end
  end.
Proof. unfold poll_attempt. run. Qed.

Ltac norm_in H :=
  cbv beta iota zeta delta
      [bind lift ret raise try_except _get_headers client_post sleep
       set_conversation_id
       is_Exception is_JSONDecodeError
       py_in py_get py_lower py_getitem0 loads raise_for_status success
       verdict pause content_text parsed_reply default mentions
       touched carried_conversation_id typed_fields keeps_polling
       query_request] in H;
  cbn [conversation_ids tokens_minted requests sleeps negb andb orb fst snd
       List.app exn_cls exn_str lookup_key] in H.

(** Case analysis along the evaluation of the left-hand side of [H]. *)
Ltac run_in H :=
  repeat (norm_in H;
          lazymatch type of H with
          | ?lhs = _ =>
            let x := scrutinee lhs in
            lazymatch x with
            | Return _ => fail
            | Next => fail
            | true => fail
            | false => fail
            | Some _ => fail
            | None => fail
            | _ => tryif is_var x then destruct x else destruct x eqn:?
            end
          end);
  norm_in H.

(** A final state has a string as its text, and an error that is a
    string or absent when the relayed fields are. *)
Lemma verdict_return rt r t e :
  verdict rt r = Return (t, e) ->
  (exists s, t = VStr s)
  /\ (typed_fields rt r = true -> optional_str e = true).
Proof.
  intros H. norm.
  run_in H; try discriminate; injection H as <- <-;
    (split; [eauto|]); cbn [optional_str]; try reflexivity.
  all: intros T; try apply andb_true_iff in T;
    repeat match goal with
           | H : context [lookup_key ?k ?d] |- context [lookup_key ?k ?d] =>
             destruct (lookup_key k d)
           end; try reflexivity; try apply T; try exact T.
Qed.

(** What one pass leaves behind, whatever happened. *)
Lemma poll_attempt_frame rt env tool conv msg interval attempt w :
  exists v w',
    poll_attempt rt env tool conv msg interval attempt w = (Ok v, w')
    /\ conversation_ids w' = conversation_ids w
    /\ tokens_minted w' = S (tokens_minted w)
    /\ (issued w <= issued w' <= S (issued w))%nat
    /\ match v with
       | Return (t, e) =>
         (exists s, t = VStr s)
         /\ ((forall h r, post env h = Ok r -> typed_fields rt r = true) ->
             optional_str e = true)
       | Next => True
       end.
Proof.
  rewrite poll_attempt_run. unfold issued.
  destruct (get_token env (tokens_minted w)) as [token|e].
  2:{ do 2 eexists. split; [reflexivity|]. cbn. repeat split; lia. }
  cbv zeta.
  match goal with |- context [post env ?h] => destruct (post env h) as [resp|e] eqn:P end.
  2:{ do 2 eexists. split; [reflexivity|]. cbn. repeat split; lia. }
  do 2 eexists. split; [reflexivity|]. cbn [touched conversation_ids tokens_minted requests List.length].
  repeat split; try lia.
  destruct (status_code resp =? 429); [exact I|].
  destruct (verdict rt resp) as [[t e]|] eqn:V; [|exact I].
  destruct (verdict_return _ _ _ _ V) as [Ht He].
  split; [exact Ht|]. intros T. apply He. exact (T _ _ P).
Qed.

Lemma poll_loop_step rt env tool conv msg interval attempt rest w :
  poll_loop rt env tool conv msg interval (attempt :: rest) w =
  match poll_attempt rt env tool conv msg interval attempt w with
  | (Ok (Return v), w') => (Ok v, w')
  | (Ok Next, w') => poll_loop rt env tool conv msg interval rest w'
  | (Raise e, w') => (Raise e, w')
  end.
Proof.
  cbn [poll_loop]. unfold bind.
  destruct (poll_attempt rt env tool conv msg interval attempt w) as [[[v|]|e] w'];
    reflexivity.
Qed.

(** The loop always returns, with a string as text; it changes no
    conversation id, asks for at most one token and issues at most one
    request per attempt. *)
Lemma poll_loop_frame rt env tool conv msg interval attempts :
  forall w, exists text err w',
    poll_loop rt env tool conv msg interval attempts w
    = (Ok (VStr text, err), w')
    /\ conversation_ids w' = conversation_ids w
    /\ (tokens_minted w' <= tokens_minted w + List.length attempts)%nat
    /\ (issued w <= issued w' <= issued w + List.length attempts)%nat
    /\ ((forall h r, post env h = Ok r -> typed_fields rt r = true) ->
        optional_str err = true).
Proof.
  induction attempts as [|attempt rest IH]; intros w.
  - exists "", (VStr timeout_message), w. cbn. repeat split; lia.
  - rewrite poll_loop_step.
    destruct (poll_attempt_frame rt env tool conv msg interval attempt w)
      as (v & w1 & E & I1 & T1 & R1 & V).
    rewrite E. destruct v as [[t e]|].
    + destruct V as [[s ->] Te]. exists s, e, w1. cbn [List.length].
      repeat split; try lia; assumption.
    + destruct (IH w1) as (t & e & w' & E' & I2 & T2 & R2 & Te).
      exists t, e, w'. cbn [List.length].
      repeat split; try lia; try assumption. congruence.
Qed.

(** When no answer is final, the loop runs through all its attempts,
    issues one request in each and ends with the timeout. *)
Lemma poll_loop_timeout rt env tool conv msg interval attempts :
  (forall n, exists token, get_token env n = Ok token) ->
  (forall h, keeps_polling rt (post env h) = true) ->
  forall w, exists w',
    poll_loop rt env tool conv msg interval attempts w
    = (Ok (VStr "", VStr timeout_message), w')
    /\ tokens_minted w' = (tokens_minted w + List.length attempts)%nat
    /\ issued w' = (issued w + List.length attempts)%nat.
Proof.
  intros Htok Hkeep.
  induction attempts as [|attempt rest IH]; intros w.
  - exists w. cbn. repeat split; lia.
  - rewrite poll_loop_step, poll_attempt_run.
    destruct (Htok (tokens_minted w)) as [token ->]. cbv zeta.
    match goal with
    | |- context [post env ?h] =>
      pose proof (Hkeep h) as K; destruct (post env h) as [resp|e]
    end.
    + assert ((if status_code resp =? 429 then Next else verdict rt resp)
              = @Next (value * value)) as ->.
      { unfold keeps_polling in K. destruct (status_code resp =? 429); [reflexivity|].
        cbn [orb] in K. destruct (verdict rt resp); [discriminate|reflexivity]. }
      match goal with |- context [poll_loop _ _ _ _ _ _ _ ?w1] => destruct (IH w1) as (w' & E & T & R) end.
      exists w'. rewrite E. unfold issued in *. cbn in *. repeat split; lia.
    + match goal with |- context [poll_loop _ _ _ _ _ _ _ ?w1] => destruct (IH w1) as (w' & E & T & R) end.
      exists w'. rewrite E. unfold issued in *. cbn in *. repeat split; lia.
Qed.


Lemma poll_for_completion_frame rt env conv msg max_attempts interval w :
  exists text err w',
    _poll_for_completion rt env conv msg max_attempts interval w
    = (Ok (VStr text, err), w')
    /\ conversation_ids w' = conversation_ids w
    /\ (tokens_minted w' <= tokens_minted w + Z.to_nat max_attempts)%nat
    /\ (issued w <= issued w' <= issued w + Z.to_nat max_attempts)%nat
    /\ ((forall h r, post env h = Ok r -> typed_fields rt r = true) ->
        optional_str err = true).
Proof.
  unfold _poll_for_completion.
  destruct (poll_loop_frame rt env ("poll_response_" +:+ GENIE_SPACE_ID rt)
                            conv msg interval (Py.range max_attempts) w)
    as (t & e & w' & E & H1 & H2 & H3 & H4).
  exists t, e, w'. unfold Py.range in *.
  rewrite length_map, length_seq in *. auto.
Qed.

Ltac query_step :=
  norm; cbn [is_text_triple optional_fields truthy of_optional exn_cls exn_str];
  try reflexivity;
  lazymatch goal with
  | |- ?lhs = _ =>
    let x := scrutinee lhs in
    lazymatch x with
    | (_, _) => fail
    | true => fail
    | false => fail
    | Ok _ => fail
    | Raise _ => fail
    | andb (optional_str _) _ => fail
    | optional_str _ => fail
    | _poll_for_completion ?rt ?env ?c ?m ?n ?i ?w =>
      let E := fresh "Epoll" in
      let Hids := fresh "Hids" in
      let Hty := fresh "Htyped" in
      destruct (poll_for_completion_frame rt env c m n i w)
        as (? & ? & ? & E & Hids & _ & _ & Hty);
      rewrite E
    | _ =>
      lazymatch type of x with
      | world => fail
      | gmap _ _ => fail
      | _ => tryif is_var x then destruct x else destruct x eqn:?
      end
    end
  end.

Ltac run_query := repeat query_step.

Lemma query_genie_text rt env query session conv w :
  is_text_triple (fst (query_genie rt env query session conv w)) = true.
Proof. unfold query_genie. run_query. Qed.

(** Rewrite [H] with the equations that the case analysis has left. *)
Ltac settle_in H :=
  repeat (norm_in H;
          lazymatch type of H with
          | ?lhs = _ =>
            let x := scrutinee lhs in
            lazymatch x with
            | optional_str _ => fail
            | andb (optional_str _) _ => fail
            | _ => match goal with E : x = _ |- _ => rewrite E in H end
            end
          end);
  norm_in H.

(** Use the equations that the case analysis has left on the goal. *)
Ltac close_leaf :=
  norm; cbn [is_text_triple optional_fields truthy of_optional exn_cls exn_str];
  try match goal with
      | H : (status_code _ =? 429) = true |- _ =>
        apply Z.eqb_eq in H; rewrite H
      end;
  repeat match goal with
         | E : ?x = _ |- context [?x] =>
           lazymatch x with
           | lookup_key _ _ => idtac
           | json _ => idtac
           | json_loads _ _ => idtac
           | andb _ _ => idtac
           | conversation_ids _ => idtac
           end;
           rewrite E
         end;
  norm; cbn [is_text_triple optional_fields truthy of_optional exn_cls exn_str];
  try reflexivity.

Lemma query_genie_conversation_ids_run rt env query session conv w :
  conversation_ids (snd (query_genie rt env query session conv w)) =
  match get_token env (tokens_minted w) with
  | Ok token =>
    match post env (query_request rt token query conv :: requests w) with
    | Ok resp =>
      match carried_conversation_id rt resp with
      | Some v => <[session := v]> (conversation_ids w)
      | None => conversation_ids w
      end
    | Raise _ => conversation_ids w
    end
  | Raise _ => conversation_ids w
  end.
Proof.
  unfold query_genie.
  run_query; close_leaf.
Qed.

Ltac use_typed :=
  match goal with
  | T : (forall h r, post _ h = Ok r -> typed_fields _ r = true),
    P : post _ _ = Ok ?r |- _ =>
    let Tr := fresh "Tr" in
    pose proof (T _ _ P) as Tr; settle_in Tr
  end.


Ltac typed_leaf :=
  try use_typed;
  repeat match goal with
         | H : (forall h r, post _ h = Ok r -> _) -> _,
           T : forall h r, post _ h = Ok r -> _ |- _ => specialize (H T)
         end;
  repeat match goal with
         | H : andb _ _ = true |- _ => apply andb_true_iff in H; destruct H
         end;
  repeat match goal with
         | E : lookup_key ?k ?d = _, H : context [lookup_key ?k ?d] |- _ =>
           rewrite E in H
         end;
  repeat match goal with
         | |- context [lookup_key ?k ?d] =>
           let o := fresh "o" in remember (lookup_key k d) as o; destruct o
         end;
  cbn [optional_str andb] in *;
  repeat match goal with
         | H : ?x = true |- context [?x] => rewrite H
         end;
  try reflexivity; try assumption.

Lemma optional_of_optional conv : optional_str (of_optional conv) = true.
Proof. destruct conv; reflexivity. Qed.

Lemma query_genie_optional_fields rt env query session conv w :
  (forall h r, post env h = Ok r -> typed_fields rt r = true) ->
  optional_fields (fst (query_genie rt env query session conv w)) = true.
Proof.
  intros T. unfold query_genie.
  run_query.
  all: norm; cbn [optional_fields optional_str andb exn_cls exn_str];
    rewrite ?optional_of_optional; cbn [optional_str andb]; try reflexivity.
  all: typed_leaf.
Qed.

End GenieFacts.

(** ** Facts about the text operations and the explanation *)

Module TextFacts.

Import RouterSpec RouterFacts ExplanationSpec.

Lemma tie_break_category (d g : Z) :
  0 <= d -> 0 <= g -> (fst (tie_break d g) = DATA <-> g < d).
Proof.
  intros Hd Hg. unfold tie_break.
  destruct (Z.ltb_spec 0 d), (Z.eqb_spec g 0), (Z.ltb_spec 0 g),
           (Z.eqb_spec d 0), (Z.ltb_spec g d), (Z.ltb_spec d g);
    cbn; split; intros; try lia; try discriminate; reflexivity.
Qed.

Lemma classify_query_text (self : QueryRouter) (q : string) :
  classify_query self q =
  tie_break (count_matches (data_patterns self)
                           (Str.strip (Str.lower (Str.chars q))))
            (count_matches (general_patterns self)
                           (Str.strip (Str.lower (Str.chars q)))).
Proof. reflexivity. Qed.

Lemma get_routing_explanation_eq (self : QueryRouter) (q : string) :
  get_routing_explanation self q = explanation_of (classify_query self q).
Proof.
  unfold get_routing_explanation, explanation_of.
  destruct (classify_query self q) as [t c]. reflexivity.
Qed.

Lemma explanation_checked (d g : Z) :
  0 <= d <= 46 -> 0 <= g <= 27 ->
  explanation_of (tie_break d g) = expected_explanation d g.
Proof.
  intros Hd Hg. apply String.eqb_eq.
  assert (for_all_counts explanation_check = true) as H
    by (vm_compute; reflexivity).
  exact (for_all_counts_spec _ H d g Hd Hg).
Qed.

Lemma lower_char_space (c : ascii) :
  Str.is_space (Str.lower_char c) = Str.is_space c.
Proof. destruct c as [[] [] [] [] [] [] [] []]; reflexivity. Qed.

Lemma lower_char_idem (c : ascii) :
  Str.lower_char (Str.lower_char c) = Str.lower_char c.
Proof. destruct c as [[] [] [] [] [] [] [] []]; reflexivity. Qed.

Lemma lower_idem (s : list ascii) : Str.lower (Str.lower s) = Str.lower s.
Proof.
  unfold Str.lower. rewrite map_map. apply map_ext. apply lower_char_idem.
Qed.

Lemma lower_blank (s : list ascii) : blank (Str.lower s) = blank s.
Proof.
  unfold blank, Str.lower. induction s as [|c s IH]; [reflexivity|].
  cbn [map forallb]. rewrite lower_char_space, IH. reflexivity.
Qed.

Lemma lower_app (a b : list ascii) :
  Str.lower (a ++ b) = Str.lower a ++ Str.lower b.
Proof. apply map_app. Qed.

Lemma lstrip_blank (s : list ascii) : blank s = true -> Str.lstrip s = [].
Proof.
  unfold blank. induction s as [|c s IH]; [reflexivity|].
  cbn [forallb Str.lstrip]. intros H. apply andb_true_iff in H.
  destruct H as [Hc Hs]. rewrite Hc. auto.
Qed.

Lemma lstrip_app_blank (a s : list ascii) :
  blank a = true -> Str.lstrip (a ++ s) = Str.lstrip s.
Proof.
  unfold blank. induction a as [|c a IH]; [reflexivity|].
  cbn [forallb app Str.lstrip]. intros H. apply andb_true_iff in H.
  destruct H as [Hc Ha]. rewrite Hc. auto.
Qed.

Lemma lstrip_app (s b : list ascii) :
  Str.lstrip (s ++ b) = if blank s then Str.lstrip b else Str.lstrip s ++ b.
Proof.
  unfold blank. induction s as [|c s IH]; [reflexivity|].
  cbn [forallb app Str.lstrip]. destruct (Str.is_space c); [exact IH|reflexivity].
Qed.

Lemma blank_rev (s : list ascii) : blank (rev s) = blank s.
Proof.
  unfold blank. induction s as [|c s IH]; [reflexivity|].
  cbn [rev forallb]. rewrite forallb_app, IH. cbn [forallb].
  rewrite andb_true_r. apply andb_comm.
Qed.

Lemma rstrip_app_blank (s b : list ascii) :
  blank b = true -> Str.rstrip (s ++ b) = Str.rstrip s.
Proof.
  intros H. unfold Str.rstrip. rewrite rev_app_distr.
  rewrite lstrip_app_blank by (rewrite blank_rev; exact H). reflexivity.
Qed.

Lemma rstrip_blank (s : list ascii) : blank s = true -> Str.rstrip s = [].
Proof.
  intros H. unfold Str.rstrip. rewrite lstrip_blank; [reflexivity|].
  rewrite blank_rev. exact H.
Qed.

Lemma strip_blank (s : list ascii) : blank s = true -> Str.strip s = [].
Proof. intros H. unfold Str.strip. rewrite lstrip_blank by exact H. reflexivity. Qed.

Lemma strip_padding (a s b : list ascii) :
  blank a = true -> blank b = true ->
  Str.strip (a ++ s ++ b) = Str.strip s.
Proof.
  intros Ha Hb. unfold Str.strip.
  rewrite lstrip_app_blank by exact Ha. rewrite lstrip_app.
  destruct (blank s) eqn:Hs.
  - rewrite (lstrip_blank b Hb), (lstrip_blank s Hs). reflexivity.
  - apply rstrip_app_blank. exact Hb.
Qed.

Lemma chars_app (a b : string) :
  Str.chars (a +:+ b) = Str.chars a ++ Str.chars b.
Proof.
  unfold Str.chars. induction a as [|c a IH]; [reflexivity|].
  simpl. f_equal. exact IH.
Qed.

Lemma chars_of_list (l : list ascii) :
  Str.chars (string_of_list_ascii l) = l.
Proof. apply list_ascii_of_string_of_list_ascii. Qed.

Lemma blank_text_counts :
  count_matches (data_patterns query_router) [] = 0
  /\ count_matches (general_patterns query_router) [] = 0.
Proof. vm_compute. split; reflexivity. Qed.

End TextFacts.

(** ** Facts about the traces of the client *)

Module ClientFacts.

Import Genie GenieSpec GenieFacts ClientSpec.
Local Open Scope string_scope.
Local Open Scope Z_scope.





Lemma range_length (n : Z) : List.length (Py.range n) = Z.to_nat n.
Proof. unfold Py.range. rewrite length_map, length_seq. reflexivity. Qed.

Lemma range_nonpos (n : Z) : n <= 0 -> Py.range n = [].
Proof.
  intros H. unfold Py.range. replace (Z.to_nat n) with 0%nat by lia. reflexivity.
Qed.

(** While the outcomes keep the loop polling, each attempt asks for one
    token, issues one request and sleeps once. *)
Lemma poll_loop_skip rt env tool conv msg interval :
  (forall n, exists token, get_token env n = Ok token) ->
  forall attempts rest w,
    (forall h, (List.length (requests w) < List.length h
                <= List.length (requests w) + List.length attempts)%nat ->
               keeps_polling rt (post env h) = true) ->
    exists w1,
      poll_loop rt env tool conv msg interval (attempts ++ rest)%list w
      = poll_loop rt env tool conv msg interval rest w1
      /\ conversation_ids w1 = conversation_ids w
      /\ tokens_minted w1 = (tokens_minted w + List.length attempts)%nat
      /\ List.length (requests w1)
         = (List.length (requests w) + List.length attempts)%nat
      /\ List.length (sleeps w1)
         = (List.length (sleeps w) + List.length attempts)%nat.
Proof.
  intros Htok.
  induction attempts as [|attempt attempts IH]; intros rest w Hkeep.
  - exists w. cbn. repeat split; lia.
  - cbn [List.app]. rewrite poll_loop_step, poll_attempt_run.
    destruct (Htok (tokens_minted w)) as [token ->]. cbv zeta.
    match goal with
    | |- context [post env ?h] =>
      pose proof (Hkeep h) as K; destruct (post env h) as [resp|e]
    end.
    + assert ((if status_code resp =? 429 then Next else verdict rt resp)
              = @Next (value * value)
              /\ List.length (pause rt interval resp) = 1%nat) as [-> Lp].
      { cbn [List.length] in K. specialize (K ltac:(lia)).
        unfold keeps_polling in K. unfold pause.
        destruct (status_code resp =? 429); [split; reflexivity|].
        cbn [orb] in K. destruct (verdict rt resp); [discriminate|split; reflexivity]. }
      match goal with
      | |- context [poll_loop _ _ _ _ _ _ _ ?w1] =>
        destruct (IH rest w1) as (w' & E & I1 & T & R & S)
      end.
      { intros h Hh. apply Hkeep. cbn in *. lia. }
      exists w'. rewrite E. cbn in *. rewrite length_app, Lp in S.
      repeat split; try assumption; lia.
    + match goal with
      | |- context [poll_loop _ _ _ _ _ _ _ ?w1] =>
        destruct (IH rest w1) as (w' & E & I1 & T & R & S)
      end.
      { intros h Hh. apply Hkeep. cbn in *. lia. }
      exists w'. rewrite E. cbn in *.
      repeat split; try assumption; lia.
Qed.


Lemma success_not_429 (r : Response) :
  success r = true -> (status_code r =? 429) = false.
Proof.
  unfold success. intros H. apply andb_true_iff in H. destruct H as [_ H].
  apply Z.leb_le in H. apply Z.eqb_neq. lia.
Qed.

(** Rewrite the goal with the equations at hand, as far as they go. *)
Ltac settle :=
  norm;
  cbn [is_text_triple optional_fields truthy of_optional exn_cls exn_str].

Ltac drive :=
  unfold query_request in *; cbn [List.app] in *;
  repeat (settle;
          match goal with
          | E : ?x = _ |- context [?x] =>
            lazymatch x with
            | get_token _ _ => idtac
            | post _ _ => idtac
            | json _ => idtac
            | json_loads _ _ => idtac
            | lookup_key _ _ => idtac
            | Z.eqb _ _ => idtac
            | andb _ _ => idtac
            | in_strings _ _ => idtac
            | truthy _ => idtac
            | match lookup_key _ _ with Some _ => _ | None => _ end => idtac
            end;
            rewrite E
          end);
  settle; try reflexivity.


Lemma query_error_reply_run rt env query session conv w token resp body errv :
  get_token env (tokens_minted w) = Ok token ->
  post env (query_request rt token query conv :: requests w) = Ok resp ->
  success resp = true ->
  json resp = Ok (VDict body) ->
  lookup_key "error" body = Some errv ->
  query_genie rt env query session conv w
  = (Ok match errv with
        | VDict err =>
          (VStr "", VNone,
           default (VStr "Unknown error from Genie") (lookup_key "message" err))
        | _ =>
          failure conv
                  (mk_exn AttributeError
                          ("'" +:+ type_name errv
                           +:+ "' object has no attribute 'get'"))
        end,
     asked w (query_request rt token query conv) (conversation_ids w)).
Proof.
  intros Ht Hp Hs Hj He. pose proof (success_not_429 _ Hs) as C.
  unfold success in Hs. unfold query_genie, asked, failure.
  drive. destruct errv; drive.
Qed.

Lemma query_plain_text_run rt env query session conv w token resp body text :
  get_token env (tokens_minted w) = Ok token ->
  post env (query_request rt token query conv :: requests w) = Ok resp ->
  success resp = true ->
  json resp = Ok (VDict body) ->
  lookup_key "error" body = None ->
  content_text body = Some text ->
  json_loads rt text = None ->
  query_genie rt env query session conv w
  = (Ok (VStr text, of_optional conv, VNone),
     asked w (query_request rt token query conv) (conversation_ids w)).
Proof.
  intros Ht Hp Hs Hj He Hc Hl. pose proof (success_not_429 _ Hs) as C.
  unfold success in Hs. unfold content_text in Hc.
  run_in Hc; try discriminate; injection Hc as <-;
    unfold query_genie, asked; drive;
    unfold _format_response; rewrite ?Hl; drive.
Qed.

Lemma query_no_content_run rt env query session conv w token resp body res :
  get_token env (tokens_minted w) = Ok token ->
  post env (query_request rt token query conv :: requests w) = Ok resp ->
  success resp = true ->
  json resp = Ok (VDict body) ->
  lookup_key "error" body = None ->
  default (VDict []) (lookup_key "result" body) = VDict res ->
  truthy (default (VList []) (lookup_key "content" res)) = false ->
  query_genie rt env query session conv w
  = (Ok (VStr "No response from Genie Space.", of_optional conv, VNone),
     asked w (query_request rt token query conv) (conversation_ids w)).
Proof.
  intros Ht Hp Hs Hj He Hr Hc. pose proof (success_not_429 _ Hs) as C.
  unfold success in Hs. unfold default in Hr, Hc.
  unfold query_genie, asked. drive.
  destruct (lookup_key "result" body) as [r|] eqn:Er.
  - subst r. drive.
    destruct (lookup_key "content" res) as [c|] eqn:Ec; drive.
    unfold nonempty. rewrite Hc. reflexivity.
  - injection Hr as <-. drive.
Qed.


Lemma query_pending_run rt env query session conv w token resp body
      text parsed st :
  get_token env (tokens_minted w) = Ok token ->
  post env (query_request rt token query conv :: requests w) = Ok resp ->
  success resp = true ->
  json resp = Ok (VDict body) ->
  lookup_key "error" body = None ->
  content_text body = Some text ->
  json_loads rt text = Some (VDict parsed) ->
  default (VStr "") (lookup_key "status" parsed) = VStr st ->
  in_strings (Str.lower_s st) ["completed"; "complete"] = false ->
  let cid := default VNone (lookup_key "conversation_id" parsed) in
  let mid := default VNone (lookup_key "message_id" parsed) in
  exists reply err w2,
    _poll_for_completion
      rt env (py_or cid (of_optional conv)) mid 60 2%float
      (asked w (query_request rt token query conv) (remembered w session cid))
    = (Ok (VStr reply, err), w2)
    /\ query_genie rt env query session conv w
       = (Ok (if truthy err then (VStr "", cid, err)
              else (VStr reply, cid, VNone)),
          w2).
Proof.
  intros Ht Hp Hs Hj He Hc Hl Hst Hin cid mid.
  destruct (poll_for_completion_frame
              rt env (py_or cid (of_optional conv)) mid 60 2%float
              (asked w (query_request rt token query conv)
                     (remembered w session cid)))
    as (reply & err & w2 & E & _).
  exists reply, err, w2. split; [exact E|].
  subst cid mid.
  pose proof (success_not_429 _ Hs) as C.
  unfold success in Hs. unfold content_text in Hc. unfold default in Hst.
  unfold asked, remembered, default, query_request in E.
  cbn [List.app] in E. unfold default.
  remember (match lookup_key "conversation_id" parsed with
            | Some v => v
            | None => VNone
            end) as cid eqn:Ecid.
  symmetry in Ecid. destruct (truthy cid) eqn:Tc.
  all: run_in Hc; try discriminate; injection Hc as <-.
  all: unfold query_genie; drive.
  all: rewrite E; destruct (truthy err); reflexivity.
Qed.





End ClientFacts.

(** * Further properties of the query router *)

Section RouterProperties.

Import RouterSpec RouterFacts ExplanationSpec TextFacts.

(** X1: for any router, [classify_query] answers [DATA] exactly when
    strictly more data patterns than general patterns match; for the
    module's router this is also exactly when [should_route_to_genie]
    is true. *)
Theorem data_category_iff (self : QueryRouter) (query : string) :
  (fst (classify_query self query) = DATA <->
   general_matches_of self query < data_matches_of self query)
  /\ (should_route_to_genie query_router query = true <->
      general_matches_of query_router query
      < data_matches_of query_router query).
Proof.
  split.
  - rewrite classify_query_tie_break.
    apply tie_break_category; apply count_matches_bounds.
  - rewrite should_route_eq, category_eq, andb_true_iff.
    pose proof (confidence_at_least_half query) as Hc.
    pose proof (tie_break_category
                  (data_matches_of query_router query)
                  (general_matches_of query_router query)
                  (proj1 (data_matches_bounds query))
                  (proj1 (general_matches_bounds query))) as Hcat.
    revert Hc Hcat.
    generalize (Py.ge (confidence query) 0.5%float).
    generalize (fst (tie_break (data_matches_of query_router query)
                               (general_matches_of query_router query))).
    intros t b Hb Hcat. rewrite <- Hcat.
    destruct t; cbn; split; intros H; try tauto; try (destruct H; discriminate).
    discriminate.
Qed.

(** X2: a query that consists of whitespace only, the empty query
    among them, is classified [GENERAL] with confidence 0.5, is not
    routed to Genie, and is explained as a general query at 50%. *)
Theorem blank_query_is_general (query : string) :
  blank (Str.chars query) = true ->
  classify_query query_router query = (GENERAL, 0.5%float)
  /\ should_route_to_genie query_router query = false
  /\ get_routing_explanation query_router query
     = "Routing to Claude LLM (general query, confidence: 50%)"%string.
Proof.
  intros B.
  assert (classify_query query_router query = (GENERAL, 0.5%float)) as E.
  { rewrite classify_query_text.
    rewrite strip_blank by (rewrite lower_blank; exact B).
    destruct blank_text_counts as [-> ->]. reflexivity. }
  split; [exact E|]. split.
  - unfold should_route_to_genie. rewrite E. reflexivity.
  - rewrite get_routing_explanation_eq, E. vm_compute. reflexivity.
Qed.

Lemma blank_query_is_general_witness :
  classify_query query_router (String " " (String (ascii_of_N 9) EmptyString))
  = (GENERAL, 0.5%float).
Proof.
  apply (blank_query_is_general
           (String " " (String (ascii_of_N 9) EmptyString))).
  reflexivity.
Defined.

(** X3: for any router, the classification of a query does not change
    when whitespace is put before and after it, nor when its letters
    are put in lower case. *)
Theorem classify_query_ignores_padding_and_case
        (self : QueryRouter) (query left right : string) :
  blank (Str.chars left) = true ->
  blank (Str.chars right) = true ->
  classify_query self (left +:+ query +:+ right) = classify_query self query
  /\ classify_query self (Str.lower_s query) = classify_query self query.
Proof.
  intros Hl Hr. rewrite !classify_query_text. split.
  - rewrite !chars_app, !lower_app.
    rewrite strip_padding by (rewrite lower_blank; assumption).
    reflexivity.
  - unfold Str.lower_s. rewrite chars_of_list, lower_idem. reflexivity.
Qed.

Lemma classify_query_ignores_padding_and_case_witness :
  classify_query query_router "  how many clients   "
  = classify_query query_router "how many clients".
Proof.
  apply (proj1 (classify_query_ignores_padding_and_case
                  query_router "how many clients" "  " "   "
                  eq_refl eq_refl)).
Defined.

(** X4: [get_routing_explanation] names Genie exactly when more data
    than general patterns match, and the percentage it prints is the
    whole number [min(50 + 10*n, 95)] when only one set matches [n]
    patterns and [min(50 + 5*|d - g|, 85)] otherwise; the rounding of
    the floats never shows. *)
Theorem routing_explanation_text (query : string) :
  get_routing_explanation query_router query =
  expected_explanation (data_matches_of query_router query)
                       (general_matches_of query_router query).
Proof.
  rewrite get_routing_explanation_eq, classify_query_tie_break.
  apply explanation_checked;
    [apply data_matches_bounds | apply general_matches_bounds].
Qed.

End RouterProperties.

(** * Further properties of the Genie client *)

Section PollProperties.

Import Genie GenieSpec GenieFacts ClientSpec ClientFacts.
Local Open Scope string_scope.
Local Open Scope Z_scope.


(** X6: with [max_attempts] zero or negative nothing is polled: the
    result is the timeout, and no token, request or sleep happens. *)
Theorem poll_without_attempts
        (rt : Runtime) (env : Env) (conv msg : value)
        (max_attempts : Z) (interval : float) (w : world) :
  max_attempts <= 0 ->
  _poll_for_completion rt env conv msg max_attempts interval w
  = (Ok (VStr "", VStr "Query timed out. Please try again."), w).
Proof.
  intros H. unfold _poll_for_completion. rewrite (range_nonpos _ H).
  reflexivity.
Qed.

Lemma poll_without_attempts_witness :
  _poll_for_completion Sample.runtime (Sample.always Sample.pending)
                       (VStr "c-1") (VStr "m-1") (-3) 2%float Sample.fresh
  = (Ok (VStr "", VStr "Query timed out. Please try again."), Sample.fresh).
Proof.
  apply (poll_without_attempts Sample.runtime (Sample.always Sample.pending)
                               (VStr "c-1") (VStr "m-1") (-3) 2%float
                               Sample.fresh).
  lia.
Defined.



(** X8: when tokens are issued and no outcome is final, the loop ends
    with the timeout after exactly [max_attempts] tokens, requests and
    sleeps. *)
Theorem poll_times_out
        (rt : Runtime) (env : Env) (conv msg : value)
        (max_attempts : Z) (interval : float) (w : world) :
  (forall n, exists token, get_token env n = Ok token) ->
  (forall h, keeps_polling rt (post env h) = true) ->
  exists w',
    _poll_for_completion rt env conv msg max_attempts interval w
    = (Ok (VStr "", VStr "Query timed out. Please try again."), w')
    /\ conversation_ids w' = conversation_ids w
    /\ tokens_minted w' = (tokens_minted w + Z.to_nat max_attempts)%nat
    /\ List.length (requests w')
       = (List.length (requests w) + Z.to_nat max_attempts)%nat
    /\ List.length (sleeps w')
       = (List.length (sleeps w) + Z.to_nat max_attempts)%nat.
Proof.
  intros Htok Hkeep. unfold _poll_for_completion.
  destruct (poll_loop_skip rt env ("poll_response_" +:+ GENIE_SPACE_ID rt)
                           conv msg interval Htok
                           (Py.range max_attempts) [] w)
    as (w1 & E & I1 & T1 & R1 & S1).
  { intros h _. apply Hkeep. }
  rewrite app_nil_r in E. rewrite range_length in *.
  exists w1. rewrite E. cbn. repeat split; assumption.
Qed.

(** A service that is always rate limited, polled three times. *)
Lemma poll_times_out_witness :
  exists w',
    _poll_for_completion
      Sample.runtime
      (Sample.always (Sample.with_status 429 Sample.pending))
      (VStr "c-1") (VStr "m-1") 3 2%float Sample.fresh
    = (Ok (VStr "", VStr "Query timed out. Please try again."), w')
    /\ conversation_ids w' = conversation_ids Sample.fresh
    /\ tokens_minted w' = 3%nat
    /\ List.length (requests w') = 3%nat
    /\ List.length (sleeps w') = 3%nat.
Proof.
  apply (poll_times_out
           Sample.runtime
           (Sample.always (Sample.with_status 429 Sample.pending))
           (VStr "c-1") (VStr "m-1") 3 2%float Sample.fresh).
  - intros n. exists "token". reflexivity.
  - intros h. unfold Sample.always, Sample.scripted. cbn [post].
    destruct (List.length h - 1)%nat as [|n]; vm_compute; reflexivity.
Defined.

End PollProperties.

Section QueryProperties.

Import Genie GenieSpec GenieFacts ClientSpec ClientFacts.
Local Open Scope string_scope.
Local Open Scope Z_scope.



(** X11: a 2xx answer whose body has a top-level [error] that is an
    object gives an empty text, no conversation id, and the [message]
    of the error ([Unknown error from Genie] when it has none) without
    any rewording; an [error] that is not an object ends in the
    [except] branch with the caller's conversation id.  One request
    is issued and no conversation id is stored. *)
Theorem query_genie_error_reply
        (rt : Runtime) (env : Env) (query session : string)
        (conv : option string) (w : world)
        (token : string) (resp : Response)
        (body : list (string * value)) (errv : value) :
  get_token env (tokens_minted w) = Ok token ->
  post env (query_request rt token query conv :: requests w) = Ok resp ->
  success resp = true ->
  json resp = Ok (VDict body) ->
  lookup_key "error" body = Some errv ->
  query_genie rt env query session conv w
  = (Ok match errv with
        | VDict err =>
          (VStr "", VNone,
           default (VStr "Unknown error from Genie") (lookup_key "message" err))
        | _ =>
          failure conv
                  (mk_exn AttributeError
                          ("'" +:+ type_name errv
                           +:+ "' object has no attribute 'get'"))
        end,
     asked w (query_request rt token query conv) (conversation_ids w)).
Proof. apply query_error_reply_run. Qed.

Lemma query_genie_error_reply_witness :
  query_genie Sample.runtime
              (Sample.always (Sample.answer (Sample.error_body "conversation expired")))
              "how many clients" "session-1" (Some "c-0") Sample.fresh
  = (Ok (VStr "", VNone, VStr "conversation expired"),
     asked Sample.fresh
           (query_request Sample.runtime "token" "how many clients" (Some "c-0"))
           (conversation_ids Sample.fresh)).
Proof.
  apply (query_genie_error_reply
           Sample.runtime
           (Sample.always (Sample.answer (Sample.error_body "conversation expired")))
           "how many clients" "session-1" (Some "c-0") Sample.fresh
           "token"
           (Sample.answer (Sample.error_body "conversation expired"))
           [("error", VDict [("message", VStr "conversation expired")])]
           (VDict [("message", VStr "conversation expired")]));
    reflexivity.
Defined.

(** X12: a 2xx answer without top-level error whose first content item
    has a text that is not JSON gives that text unchanged, with the
    caller's conversation id and no error; one request is issued,
    nothing is polled and no conversation id is stored. *)
Theorem query_genie_plain_text
        (rt : Runtime) (env : Env) (query session : string)
        (conv : option string) (w : world)
        (token : string) (resp : Response)
        (body : list (string * value)) (text : string) :
  get_token env (tokens_minted w) = Ok token ->
  post env (query_request rt token query conv :: requests w) = Ok resp ->
  success resp = true ->
  json resp = Ok (VDict body) ->
  lookup_key "error" body = None ->
  content_text body = Some text ->
  json_loads rt text = None ->
  query_genie rt env query session conv w
  = (Ok (VStr text, of_optional conv, VNone),
     asked w (query_request rt token query conv) (conversation_ids w)).
Proof. apply query_plain_text_run. Qed.

Lemma query_genie_plain_text_witness :
  query_genie Sample.runtime
              (Sample.always (Replies.prose "There are 12 clients."))
              "how many clients" "session-1" None Sample.fresh
  = (Ok (VStr "There are 12 clients.", VNone, VNone),
     asked Sample.fresh
           (query_request Sample.runtime "token" "how many clients" None)
           (conversation_ids Sample.fresh)).
Proof.
  apply (query_genie_plain_text
           Sample.runtime
           (Sample.always (Replies.prose "There are 12 clients."))
           "how many clients" "session-1" None Sample.fresh
           "token" (Replies.prose "There are 12 clients.")
           (Replies.body_of (Replies.prose "There are 12 clients."))
           "There are 12 clients.");
    vm_compute; reflexivity.
Defined.

(** X13: a 2xx answer without top-level error whose [content] is
    missing or empty gives the text [No response from Genie Space.]
    with the caller's conversation id and no error. *)
Theorem query_genie_no_content
        (rt : Runtime) (env : Env) (query session : string)
        (conv : option string) (w : world)
        (token : string) (resp : Response)
        (body res : list (string * value)) :
  get_token env (tokens_minted w) = Ok token ->
  post env (query_request rt token query conv :: requests w) = Ok resp ->
  success resp = true ->
  json resp = Ok (VDict body) ->
  lookup_key "error" body = None ->
  default (VDict []) (lookup_key "result" body) = VDict res ->
  truthy (default (VList []) (lookup_key "content" res)) = false ->
  query_genie rt env query session conv w
  = (Ok (VStr "No response from Genie Space.", of_optional conv, VNone),
     asked w (query_request rt token query conv) (conversation_ids w)).
Proof. apply query_no_content_run. Qed.

Lemma query_genie_no_content_witness :
  query_genie Sample.runtime (Sample.always (Sample.answer (VDict [])))
              "how many clients" "session-1" (Some "c-0") Sample.fresh
  = (Ok (VStr "No response from Genie Space.", VStr "c-0", VNone),
     asked Sample.fresh
           (query_request Sample.runtime "token" "how many clients" (Some "c-0"))
           (conversation_ids Sample.fresh)).
Proof.
  apply (query_genie_no_content
           Sample.runtime (Sample.always (Sample.answer (VDict [])))
           "how many clients" "session-1" (Some "c-0") Sample.fresh
           "token" (Sample.answer (VDict [])) [] []);
    reflexivity.
Defined.



(** X15: a reply with any other [status] is polled, with the
    conversation id of the reply (the caller's when the reply has
    none) and the message id of the reply, 60 attempts and 2 seconds;
    the conversation id of the reply has been stored before.  The
    result is the text of the poll with the conversation id of the
    reply, or an empty text with the error of the poll when that
    error is non-empty. *)
Theorem query_genie_pending
        (rt : Runtime) (env : Env) (query session : string)
        (conv : option string) (w : world)
        (token : string) (resp : Response)
        (body : list (string * value)) (text : string)
        (parsed : list (string * value)) (st : string) :
  get_token env (tokens_minted w) = Ok token ->
  post env (query_request rt token query conv :: requests w) = Ok resp ->
  success resp = true ->
  json resp = Ok (VDict body) ->
  lookup_key "error" body = None ->
  content_text body = Some text ->
  json_loads rt text = Some (VDict parsed) ->
  default (VStr "") (lookup_key "status" parsed) = VStr st ->
  in_strings (Str.lower_s st) ["completed"; "complete"] = false ->
  exists reply err w2,
    _poll_for_completion
      rt env
      (py_or (default VNone (lookup_key "conversation_id" parsed))
             (of_optional conv))
      (default VNone (lookup_key "message_id" parsed)) 60 2%float
      (asked w (query_request rt token query conv)
             (remembered w session
                         (default VNone (lookup_key "conversation_id" parsed))))
    = (Ok (VStr reply, err), w2)
    /\ query_genie rt env query session conv w
       = (Ok (if truthy err
              then (VStr "",
                    default VNone (lookup_key "conversation_id" parsed), err)
              else (VStr reply,
                    default VNone (lookup_key "conversation_id" parsed),
                    VNone)),
          w2).
Proof. apply query_pending_run. Qed.

(** The service starts a conversation, is polled once in vain and
    then answers. *)
Lemma query_genie_pending_witness :
  exists reply err w2,
    _poll_for_completion
      Sample.runtime
      (Sample.scripted [Ok Replies.started; Ok Sample.pending;
                        Ok (Sample.completed "forty-two")]
                       (Ok Sample.pending))
      (py_or (default VNone
                      (lookup_key "conversation_id"
                                  (Replies.parsed_of Replies.started)))
             (of_optional None))
      (default VNone
               (lookup_key "message_id" (Replies.parsed_of Replies.started)))
      60 2%float
      (asked Sample.fresh
             (query_request Sample.runtime "token" "how many clients" None)
             (remembered Sample.fresh "session-1"
                         (default VNone
                                  (lookup_key "conversation_id"
                                              (Replies.parsed_of Replies.started)))))
    = (Ok (VStr reply, err), w2)
    /\ query_genie
         Sample.runtime
         (Sample.scripted [Ok Replies.started; Ok Sample.pending;
                           Ok (Sample.completed "forty-two")]
                          (Ok Sample.pending))
         "how many clients" "session-1" None Sample.fresh
       = (Ok (if truthy err
              then (VStr "",
                    default VNone
                            (lookup_key "conversation_id"
                                        (Replies.parsed_of Replies.started)),
                    err)
              else (VStr reply,
                    default VNone
                            (lookup_key "conversation_id"
                                        (Replies.parsed_of Replies.started)),
                    VNone)),
          w2).
Proof.
  apply (query_genie_pending
           Sample.runtime
           (Sample.scripted [Ok Replies.started; Ok Sample.pending;
                             Ok (Sample.completed "forty-two")]
                            (Ok Sample.pending))
           "how many clients" "session-1" None Sample.fresh
           "token" Replies.started
           (Replies.body_of Replies.started)
           (Replies.text_of Replies.started)
           (Replies.parsed_of Replies.started)
           "running");
    vm_compute; reflexivity.
Defined.

(** X16: when in every answer of the service the fields that the
    client relays (the message of a top-level error, and the
    [conversation_id] and [error] of a decoded reply) are strings or
    absent, the conversation id and the error that [query_genie]
    returns are strings or [None]. *)
Theorem query_genie_relays_typed_fields
        (rt : Runtime) (env : Env) (query session : string)
        (conv : option string) (w : world) :
  (forall h r, post env h = Ok r -> typed_fields rt r = true) ->
  optional_fields (fst (query_genie rt env query session conv w)) = true.
Proof. apply query_genie_optional_fields. Qed.

Lemma query_genie_relays_typed_fields_witness :
  optional_fields
    (fst (query_genie Sample.runtime (Sample.always Replies.started)
                      "how many clients" "session-1" None Sample.fresh))
  = true.
Proof.
  apply (query_genie_relays_typed_fields
           Sample.runtime (Sample.always Replies.started)
           "how many clients" "session-1" None Sample.fresh).
  intros h r. unfold Sample.always, Sample.scripted. cbn [post].
  destruct (List.length h - 1)%nat; cbn [nth];
    intros E; injection E as <-; vm_compute; reflexivity.
Defined.

(** X17: the only thing [query_genie] does to the tracker is to store,
    for its session, the non-empty conversation id that the 2xx answer
    to the query carries, whatever happens afterwards; so a later
    [get_conversation_id] returns that id for the session, and what
    it returned before for every other session and when the answer
    carries no id. *)
Theorem query_genie_then_get_conversation_id
        (rt : Runtime) (env : Env) (query session other : string)
        (conv : option string) (w : world) :
  conversation_ids (snd (query_genie rt env query session conv w))
  = match carried_by rt env query conv w with
    | Some v => <[session := v]> (conversation_ids w)
    | None => conversation_ids w
    end
  /\ fst (get_conversation_id
            other (snd (query_genie rt env query session conv w)))
     = match carried_by rt env query conv w with
       | Some v =>
         if String.eqb other session then Ok v
         else fst (get_conversation_id other w)
       | None => fst (get_conversation_id other w)
       end.
Proof.
  assert (conversation_ids (snd (query_genie rt env query session conv w))
          = match carried_by rt env query conv w with
            | Some v => <[session := v]> (conversation_ids w)
            | None => conversation_ids w
            end) as H.
  { rewrite query_genie_conversation_ids_run. unfold carried_by.
    destruct (get_token env (tokens_minted w)); [|reflexivity].
    destruct (post env _); reflexivity. }
  split; [exact H|].
  unfold get_conversation_id. cbn [fst]. rewrite H.
  destruct (carried_by rt env query conv w) as [v|]; [|reflexivity].
  destruct (String.eqb_spec other session) as [->|Hne].
  - rewrite lookup_insert_eq. reflexivity.
  - rewrite lookup_insert_ne by congruence. reflexivity.
Qed.

End QueryProperties.

Section PollOutcomeProperties.

Import Genie GenieSpec GenieFacts ClientSpec ClientFacts.
Local Open Scope string_scope.
Local Open Scope Z_scope.

(** X18: a first poll that is answered with a 2xx status and a body
    with a top-level error object ends the loop at once, with one
    request and no sleep.  The error is [The conversation has
    expired. Please try your query again.] when the message, in lower
    case, contains [expired] or [not found], and the message itself
    otherwise. *)
Theorem poll_error_reply
        (rt : Runtime) (env : Env) (conv msg : value)
        (max_attempts : Z) (interval : float) (w : world)
        (token : string) (resp : Response)
        (body err : list (string * value)) (message : string) :
  1 <= max_attempts ->
  get_token env (tokens_minted w) = Ok token ->
  post env (poll_request rt token conv msg :: requests w) = Ok resp ->
  success resp = true ->
  json resp = Ok (VDict body) ->
  lookup_key "error" body = Some (VDict err) ->
  default (VStr "Unknown error") (lookup_key "message" err) = VStr message ->
  _poll_for_completion rt env conv msg max_attempts interval w
  = (Ok (VStr "",
         VStr (if Str.contains_s "expired" (Str.lower_s message)
                  || Str.contains_s "not found" (Str.lower_s message)
               then "The conversation has expired. Please try your query again."
               else message)),
     touched w (poll_request rt token conv msg :: requests w) (sleeps w)).
Proof.
  intros Hmax Ht Hp Hs Hj He Hm.
  pose proof (success_not_429 _ Hs) as C.
  unfold _poll_for_completion, Py.range.
  destruct (Z.to_nat max_attempts) as [|n] eqn:En; [lia|].
  cbn [seq map]. rewrite poll_loop_step, poll_attempt_run, Ht. cbv zeta.
  change {| headers := [("Authorization", "Bearer " +:+ token);
                        ("Content-Type", "application/json")];
            payload := tools_call ("poll_response_" +:+ GENIE_SPACE_ID rt)
                                  [("conversation_id", conv);
                                   ("message_id", msg)] |}
    with (poll_request rt token conv msg).
  rewrite Hp, C.
  assert (verdict rt resp
          = Return (VStr "",
                    VStr (if Str.contains_s "expired" (Str.lower_s message)
                             || Str.contains_s "not found" (Str.lower_s message)
                          then expired_message else message))) as V.
  { unfold verdict. rewrite Hs, Hj, He, Hm. cbn [negb]. unfold mentions.
    destruct (Str.contains_s "expired" (Str.lower_s message)
              || Str.contains_s "not found" (Str.lower_s message));
      reflexivity. }
  unfold pause. rewrite C, V. reflexivity.
Qed.

Lemma poll_error_reply_witness :
  _poll_for_completion
    Sample.runtime
    (Sample.always (Sample.answer (Sample.error_body "Conversation NOT FOUND")))
    (VStr "c-1") (VStr "m-1") 60 2%float Sample.fresh
  = (Ok (VStr "",
         VStr "The conversation has expired. Please try your query again."),
     touched Sample.fresh
             [poll_request Sample.runtime "token" (VStr "c-1") (VStr "m-1")]
             []).
Proof.
  apply (poll_error_reply
           Sample.runtime
           (Sample.always (Sample.answer (Sample.error_body "Conversation NOT FOUND")))
           (VStr "c-1") (VStr "m-1") 60 2%float Sample.fresh
           "token"
           (Sample.answer (Sample.error_body "Conversation NOT FOUND"))
           [("error", VDict [("message", VStr "Conversation NOT FOUND")])]
           [("message", VStr "Conversation NOT FOUND")]
           "Conversation NOT FOUND");
    first [lia | reflexivity].
Defined.


End PollOutcomeProperties.

Section TrackerProperties.

Import Genie GenieSpec.
Local Open Scope string_scope.

(** X20: the sessions of the tracker are independent: after the entry
    of one session is set or cleared, [get_conversation_id] returns
    the new value (or [None]) for that session and what it returned
    before for every other session. *)
Theorem tracker_sessions_independent
        (session other : string) (c : value) (w : world) :
  fst (get_conversation_id other (snd (set_conversation_id session c w)))
  = (if String.eqb other session then Ok c
     else fst (get_conversation_id other w))
  /\ fst (get_conversation_id other (snd (clear_conversation session w)))
     = (if String.eqb other session then Ok VNone
        else fst (get_conversation_id other w)).
Proof.
  unfold get_conversation_id, set_conversation_id, clear_conversation.
  split; cbn [fst snd conversation_ids].
  - destruct (String.eqb_spec other session) as [->|Hne].
    + rewrite lookup_insert_eq. reflexivity.
    + rewrite lookup_insert_ne by congruence. reflexivity.
  - destruct (conversation_ids w !! session) as [v|] eqn:E;
      cbn [fst snd conversation_ids];
      destruct (String.eqb_spec other session) as [->|Hne].
    + rewrite lookup_delete_eq. reflexivity.
    + rewrite lookup_delete_ne by congruence. reflexivity.
    + rewrite E. reflexivity.
    + reflexivity.
Qed.

(** X21: [clear_conversation] is idempotent, a cleared session can be
    set again as if it had never been cleared, and clearing undoes a
    set: the tracker after set-then-clear is the tracker after clear
    alone. *)
Theorem clear_conversation_idempotent
        (session : string) (c : value) (w : world) :
  clear_conversation session (snd (clear_conversation session w))
  = (Ok tt, snd (clear_conversation session w))
  /\ snd (set_conversation_id session c (snd (clear_conversation session w)))
     = snd (set_conversation_id session c w)
  /\ conversation_ids
       (snd (clear_conversation session
                                (snd (set_conversation_id session c w))))
     = conversation_ids (snd (clear_conversation session w)).
Proof.
  unfold clear_conversation, set_conversation_id.
  repeat split.
  - destruct (conversation_ids w !! session) as [v|] eqn:E;
      cbn [snd conversation_ids].
    + rewrite lookup_delete_eq. reflexivity.
    + rewrite E. reflexivity.
  - destruct (conversation_ids w !! session) as [v|] eqn:E;
      cbn [snd conversation_ids tokens_minted requests sleeps].
    + rewrite insert_delete_eq. reflexivity.
    + reflexivity.
  - cbn [snd conversation_ids tokens_minted requests sleeps].
    rewrite lookup_insert_eq.
    cbn [snd conversation_ids tokens_minted requests sleeps].
    rewrite delete_insert_eq.
    destruct (conversation_ids w !! session) as [v|] eqn:E;
      cbn [snd conversation_ids]; [reflexivity|].
    apply delete_id. exact E.
Qed.

End TrackerProperties.

Section FormatProperties.

Import Genie GenieSpec.
Local Open Scope string_scope.

(** X22: a string that [json.loads] decodes to a list or an object is
    formatted exactly as the decoded value is; a string that decodes
    to anything else (a number, a quoted string, [true], [false],
    [null]) is returned unchanged. *)
Theorem format_response_decoded_text
        (rt : Runtime) (s : string) (v : value) :
  json_loads rt s = Some v ->
  _format_response rt (VStr s)
  = match v with
    | VList _ | VDict _ => _format_response rt v
    | _ => s
    end.
Proof.
  intros E. unfold _format_response. rewrite E. destruct v; reflexivity.
Qed.

Lemma format_response_decoded_text_witness :
  _format_response Sample.runtime (VStr "[]")
  = _format_response Sample.runtime (VList []).
Proof.
  apply (format_response_decoded_text Sample.runtime "[]" (VList [])).
  vm_compute. reflexivity.
Defined.

(** X23: data that is empty or otherwise false ([[]], [{}], [None],
    [0], the empty string) is shown as [No data found.], by
    [_format_data_as_table] and by [_format_response] on an object
    whose [data] field holds it; the other fields of the object are
    not shown. *)
Theorem format_no_data
        (rt : Runtime) (d : list (string * value)) (x : value) :
  truthy x = false ->
  lookup_key "data" d = Some x ->
  _format_data_as_table rt x = "No data found."
  /\ _format_response rt (VDict d) = "No data found.".
Proof.
  intros T E.
  assert (_format_data_as_table rt x = "No data found.") as H.
  { unfold _format_data_as_table. rewrite T. reflexivity. }
  split; [exact H|]. unfold _format_response. rewrite E. exact H.
Qed.

Lemma format_no_data_witness :
  _format_data_as_table Sample.runtime (VList []) = "No data found."
  /\ _format_response Sample.runtime
                      (VDict [("rows", VInt 0); ("data", VList [])])
     = "No data found.".
Proof.
  apply (format_no_data Sample.runtime
                        [("rows", VInt 0); ("data", VList [])] (VList []));
    reflexivity.
Defined.

End FormatProperties.
